(** * Lumina Reader: page/view state, annotation store and lookup client

  A shallow embedding of [src/types.ts], [src/geminiService.ts] and the
  state-carrying part of [src/App.tsx] (the React component [App]), with
  the properties of the reading application proved over it.

  Conventions.
  - A JavaScript string is the list of its UTF-16 code units.
  - Page numbers and timestamps are integers ([Z]); the zoom scale is an
    IEEE-754 binary64 number, as every JavaScript number is.
  - The values the environment supplies ([Math.random], [Date.now], the
    reply of the remote service, the browser's text selection) are
    arguments of the function that consumes them.
  - A React state cell [x] with setter [setX] is a field [x] of
    [App.State] and a function [setX] taking the new value; an updater
    [prev => e] is [e] at the current value of the cell. *)

From Stdlib Require Import ZArith List String Ascii Bool Lia.
From Stdlib Require Import PrimFloat FloatAxioms.
From stdpp Require Import base option list sorting.
Import ListNotations.

Local Open Scope Z_scope.
Local Set Warnings "-inexact-float".

(** ** JavaScript values used by the application *)

Module JS.

(** UTF-16 code units. *)
Abbreviation jsstring := (list N).

(** The UTF-16 code units of a text given by its UTF-8 bytes; 65533 is
    the replacement character, put for a sequence cut short. *)
Fixpoint utf16_of_utf8 (bytes : list N) : jsstring :=
  match bytes with
  | [] => []
  | b0 :: rest =>
      if (b0 <? 128)%N then b0 :: utf16_of_utf8 rest
      else if (b0 <? 224)%N then
        match rest with
        | b1 :: rest' =>
            ((b0 - 192) * 64 + (b1 - 128))%N :: utf16_of_utf8 rest'
        | _ => [65533%N]
        end
      else if (b0 <? 240)%N then
        match rest with
        | b1 :: b2 :: rest' =>
            ((b0 - 224) * 4096 + (b1 - 128) * 64 + (b2 - 128))%N
            :: utf16_of_utf8 rest'
        | _ => [65533%N]
        end
      else
        match rest with
        | b1 :: b2 :: b3 :: rest' =>
            let cp := ((b0 - 240) * 262144 + (b1 - 128) * 4096
                       + (b2 - 128) * 64 + (b3 - 128) - 65536)%N in
            (55296 + cp / 1024)%N :: (56320 + cp mod 1024)%N
            :: utf16_of_utf8 rest'
        | _ => [65533%N]
        end
  end.

(** A string literal of the source, written here in UTF-8. *)
Definition lit (s : string) : jsstring :=
  utf16_of_utf8 (List.map N_of_ascii (list_ascii_of_string s)).

(** Truthiness of a string: every string but the empty one. *)
Definition truthy (s : jsstring) : bool :=
  match s with [] => false | _ :: _ => true end.

(** Truthiness of [string | null] and of [string | undefined]. *)
Definition truthy_opt (o : option jsstring) : bool :=
  match o with Some s => truthy s | None => false end.

(** [ToString] applied to [string | undefined]. *)
Definition ToString (o : option jsstring) : jsstring :=
  match o with Some s => s | None => lit "undefined" end.

(** ECMAScript [WhiteSpace] and [LineTerminator] code points, the ones
    [String.prototype.trim] strips; all lie in the basic plane. *)
Definition is_whitespace (c : N) : bool :=
  ((9 <=? c) && (c <=? 13)          (* TAB, LF, VT, FF, CR *)
   || (c =? 32)                     (* SPACE *)
   || (c =? 160)                    (* NO-BREAK SPACE *)
   || (c =? 5760)                   (* U+1680 *)
   || ((8192 <=? c) && (c <=? 8202))  (* U+2000 .. U+200A *)
   || (c =? 8232) || (c =? 8233)    (* U+2028, U+2029 *)
   || (c =? 8239)                   (* U+202F *)
   || (c =? 8287)                   (* U+205F *)
   || (c =? 12288)                  (* U+3000 *)
   || (c =? 65279))%N.              (* U+FEFF *)

Fixpoint trimStart (s : jsstring) : jsstring :=
  match s with
  | c :: s' => if is_whitespace c then trimStart s' else s
  | [] => []
  end.

(** [String.prototype.trim]. *)
Definition trim (s : jsstring) : jsstring :=
  rev (trimStart (rev (trimStart s))).

(** [String.prototype.substr] with a start inside the non-negative range. *)
Definition substr (start len : nat) (s : jsstring) : jsstring :=
  take len (drop start s).

(** Strict equality of a string with a [string | null]. *)
Definition strict_eq (a : jsstring) (o : option jsstring) : bool :=
  match o with Some b => bool_decide (a = b) | None => false end.

(** [Math.max] and [Math.min] on integers. *)
Definition Math_max (a b : Z) : Z := Z.max a b.
Definition Math_min (a b : Z) : Z := Z.min a b.

(** [Math.max] and [Math.min] on binary64 numbers: NaN is contagious and
    the negative zero is below the positive one. *)
Definition Math_min_num (a b : float) : float :=
  if is_nan a || is_nan b then nan
  else if (a <? b)%float then a
  else if (b <? a)%float then b
  else if get_sign a then a else b.

Definition Math_max_num (a b : float) : float :=
  if is_nan a || is_nan b then nan
  else if (a <? b)%float then b
  else if (b <? a)%float then a
  else if get_sign a then b else a.

(** The JSON data model, the range of [JSON.parse]. *)
#[warnings="-register-all"]
Inductive json : Type :=
| JNull
| JBool (b : bool)
| JNumber (x : float)
| JString (s : jsstring)
| JArray (items : list json)
| JObject (members : list (jsstring * json)).

(** Truthiness of a parsed value (objects and arrays are always truthy). *)
Definition truthy_json (v : json) : bool :=
  match v with
  | JNull => false
  | JBool b => b
  | JNumber x => negb (is_nan x || is_zero x)
  | JString s => truthy s
  | JArray _ | JObject _ => true
  end.

(** The outcome of awaiting a promise. *)
Inductive Settled (A E : Type) : Type :=
| Fulfilled (a : A)
| Rejected (e : E).
Arguments Fulfilled {A E} a.
Arguments Rejected {A E} e.

End JS.
Import JS.

(** ** [src/types.ts] *)

Module Types.

Record DOMRect := mkDOMRect {
  x : float; y : float; width : float; height : float
}.

(** [comment?: string] is [None] when the property is absent. *)
Record Highlight := mkHighlight {
  id : jsstring;
  page : Z;
  text : jsstring;
  color : jsstring;
  comment : option jsstring;
  rects : list DOMRect;
  timestamp : Z
}.

Record DictionaryResult := mkDictionaryResult {
  word : jsstring;
  meaning : jsstring;
  synonyms : list jsstring
}.

(** The interface [AppState]. The component [App] does not use it: its
    state is the [useState] cells of [App.State] below. *)
Record AppState := mkAppState {
  currentPdf : option jsstring;
  AppState_numPages : Z;
  AppState_currentPage : Z;
  AppState_highlights : list Highlight;
  AppState_selectedText : jsstring;
  AppState_isDictionaryLoading : bool;
  AppState_dictionaryResult : option DictionaryResult
}.

(** The object a [DictionaryResult] literal evaluates to. *)
Definition DictionaryResult_object (r : DictionaryResult) : json :=
  JObject [ (lit "word", JString (word r));
            (lit "meaning", JString (meaning r));
            (lit "synonyms", JArray (List.map JString (synonyms r))) ].

End Types.
Import Types.

(** ** [src/geminiService.ts] *)

Module GeminiService.

(** What [ai.models.generateContent] resolves to: only the [text] getter
    is read, and it yields [undefined] when the reply carries no text. *)
Record GenerateContentResponse := mkResponse {
  response_text : option jsstring
}.

(** The [contents] of the request: the template literal around the
    selected text (34 is the double quote). *)
Definition contents (text : jsstring) : jsstring :=
  lit "Analyze the following word or short phrase: " ++ [34%N] ++ text ++ [34%N]
  ++ lit ". Provide its concise meaning in Portuguese and at least 3 synonyms in Portuguese. Format the response as JSON.".

Definition not_found_message : jsstring :=
  lit "Não foi possível encontrar a definição.".

Definition fallback (text : jsstring) : DictionaryResult :=
  {| word := text; meaning := not_found_message; synonyms := [] |}.

Section GetWordInsights.

(** [JSON.parse], [None] standing for the [SyntaxError] it throws; the
    type of errors a rejected request carries. *)
Variable JSON_parse : jsstring -> option json.
Variable Error : Type.

(** [getWordInsights(text)], given how the awaited request settles. A
    rejection happens before the [try] block and propagates; what
    [JSON.parse] throws is caught and replaced by the fallback. *)
Definition getWordInsights (text : jsstring)
    (reply : Settled GenerateContentResponse Error) : Settled json Error :=
  match reply with
  | Rejected e => Rejected e
  | Fulfilled response =>
      match JSON_parse (ToString (response_text response)) with
      | Some data => Fulfilled data
      | None => Fulfilled (DictionaryResult_object (fallback text))
      end
  end.

End GetWordInsights.

End GeminiService.
Import GeminiService.

(** ** [src/App.tsx]: state and handlers of the component *)

Module App.

(** The entries of [COLORS]; [bg] is the class name handed to
    [addHighlight]. *)
Inductive Color := Yellow | Blue | Green | Pink.

Definition COLORS : list Color := [Yellow; Blue; Green; Pink].

Definition bg (c : Color) : jsstring :=
  match c with
  | Yellow => lit "bg-yellow-200"
  | Blue => lit "bg-blue-200"
  | Green => lit "bg-green-200"
  | Pink => lit "bg-pink-200"
  end.

Inductive Theme := light | sepia | dark.
Inductive ViewMode := single | double.

Definition ViewMode_eqb (a b : ViewMode) : bool :=
  match a, b with
  | single, single | double, double => true
  | _, _ => false
  end.

(** The document handle of the rendering library; the component reads
    its page count and asks it for pages. *)
Record PDFDocumentProxy := mkPdf { pdf_numPages : Z }.

(** The [useState] cells of [App], in declaration order. *)
Record State := mkState {
  pdfDoc : option PDFDocumentProxy;
  numPages : Z;
  currentPage : Z;
  highlights : list Highlight;
  selectedText : jsstring;
  isDictionaryLoading : bool;
  dictionaryResult : option json;
  showAnnotationModal : bool;
  activeNote : jsstring;
  editingHighlightId : option jsstring;
  theme : Theme;
  viewMode : ViewMode;
  scale : float
}.

(** The initial values passed to [useState]. *)
Definition initial : State :=
  {| pdfDoc := None; numPages := 0; currentPage := 1; highlights := [];
     selectedText := []; isDictionaryLoading := false;
     dictionaryResult := None; showAnnotationModal := false;
     activeNote := []; editingHighlightId := None;
     theme := light; viewMode := double; scale := 1.2%float |}.

(** Truthiness of [pdfDoc]. *)
Definition loaded (s : State) : bool :=
  match pdfDoc s with Some _ => true | None => false end.

(** *** Setters *)

Definition setPdfDoc (v : option PDFDocumentProxy) (s : State) : State :=
  mkState v (numPages s) (currentPage s) (highlights s) (selectedText s)
    (isDictionaryLoading s) (dictionaryResult s) (showAnnotationModal s)
    (activeNote s) (editingHighlightId s) (theme s) (viewMode s) (scale s).

Definition setNumPages (v : Z) (s : State) : State :=
  mkState (pdfDoc s) v (currentPage s) (highlights s) (selectedText s)
    (isDictionaryLoading s) (dictionaryResult s) (showAnnotationModal s)
    (activeNote s) (editingHighlightId s) (theme s) (viewMode s) (scale s).

Definition setCurrentPage (v : Z) (s : State) : State :=
  mkState (pdfDoc s) (numPages s) v (highlights s) (selectedText s)
    (isDictionaryLoading s) (dictionaryResult s) (showAnnotationModal s)
    (activeNote s) (editingHighlightId s) (theme s) (viewMode s) (scale s).

Definition setHighlights (v : list Highlight) (s : State) : State :=
  mkState (pdfDoc s) (numPages s) (currentPage s) v (selectedText s)
    (isDictionaryLoading s) (dictionaryResult s) (showAnnotationModal s)
    (activeNote s) (editingHighlightId s) (theme s) (viewMode s) (scale s).

Definition setSelectedText (v : jsstring) (s : State) : State :=
  mkState (pdfDoc s) (numPages s) (currentPage s) (highlights s) v
    (isDictionaryLoading s) (dictionaryResult s) (showAnnotationModal s)
    (activeNote s) (editingHighlightId s) (theme s) (viewMode s) (scale s).

Definition setIsDictionaryLoading (v : bool) (s : State) : State :=
  mkState (pdfDoc s) (numPages s) (currentPage s) (highlights s) (selectedText s)
    v (dictionaryResult s) (showAnnotationModal s)
    (activeNote s) (editingHighlightId s) (theme s) (viewMode s) (scale s).

Definition setDictionaryResult (v : option json) (s : State) : State :=
  mkState (pdfDoc s) (numPages s) (currentPage s) (highlights s) (selectedText s)
    (isDictionaryLoading s) v (showAnnotationModal s)
    (activeNote s) (editingHighlightId s) (theme s) (viewMode s) (scale s).

Definition setShowAnnotationModal (v : bool) (s : State) : State :=
  mkState (pdfDoc s) (numPages s) (currentPage s) (highlights s) (selectedText s)
    (isDictionaryLoading s) (dictionaryResult s) v
    (activeNote s) (editingHighlightId s) (theme s) (viewMode s) (scale s).

Definition setActiveNote (v : jsstring) (s : State) : State :=
  mkState (pdfDoc s) (numPages s) (currentPage s) (highlights s) (selectedText s)
    (isDictionaryLoading s) (dictionaryResult s) (showAnnotationModal s)
    v (editingHighlightId s) (theme s) (viewMode s) (scale s).

Definition setEditingHighlightId (v : option jsstring) (s : State) : State :=
  mkState (pdfDoc s) (numPages s) (currentPage s) (highlights s) (selectedText s)
    (isDictionaryLoading s) (dictionaryResult s) (showAnnotationModal s)
    (activeNote s) v (theme s) (viewMode s) (scale s).

Definition setTheme (v : Theme) (s : State) : State :=
  mkState (pdfDoc s) (numPages s) (currentPage s) (highlights s) (selectedText s)
    (isDictionaryLoading s) (dictionaryResult s) (showAnnotationModal s)
    (activeNote s) (editingHighlightId s) v (viewMode s) (scale s).

Definition setViewMode (v : ViewMode) (s : State) : State :=
  mkState (pdfDoc s) (numPages s) (currentPage s) (highlights s) (selectedText s)
    (isDictionaryLoading s) (dictionaryResult s) (showAnnotationModal s)
    (activeNote s) (editingHighlightId s) (theme s) v (scale s).

Definition setScale (v : float) (s : State) : State :=
  mkState (pdfDoc s) (numPages s) (currentPage s) (highlights s) (selectedText s)
    (isDictionaryLoading s) (dictionaryResult s) (showAnnotationModal s)
    (activeNote s) (editingHighlightId s) (theme s) (viewMode s) v.

(** *** Handlers *)

(** [onFileChange] once a file was chosen and both awaits returned: [pdf]
    is what the loading task resolved to. *)
Definition onFileChange (pdf : PDFDocumentProxy) (s : State) : State :=
  setCurrentPage 1 (setNumPages (pdf_numPages pdf) (setPdfDoc (Some pdf) s)).

(** [handleMouseUp]; [selection] is [window.getSelection()], a present
    selection being given by its [toString()]. *)
Definition handleMouseUp (selection : option jsstring) (s : State) : State :=
  match selection with
  | Some sel =>
      if (0 <? length (trim sel))%nat then setSelectedText sel s
      else setSelectedText [] s
  | None => setSelectedText [] s
  end.

(** [fetchDictionary] up to its await, and from the await on when
    [getWordInsights] resolved to [result]. When that promise rejects the
    handler ends there and nothing more is set. *)
Definition fetchDictionary_request (s : State) : State :=
  if negb (truthy (selectedText s)) then s
  else setIsDictionaryLoading true s.

Definition fetchDictionary_resume (result : json) (s : State) : State :=
  setIsDictionaryLoading false (setDictionaryResult (Some result) s).

(** [Math.random().toString(36).substr(2, 9)], where [random36] is the
    value of [Math.random().toString(36)]. *)
Definition newId (random36 : jsstring) : jsstring := substr 2 9 random36.

(** [{ ...h, comment: note }] *)
Definition with_comment (note : jsstring) (h : Highlight) : Highlight :=
  {| id := id h; page := page h; text := text h; color := color h;
     comment := Some note; rects := rects h; timestamp := timestamp h |}.

Definition closeAnnotationModal (s : State) : State :=
  setSelectedText []
    (setActiveNote []
      (setEditingHighlightId None
        (setShowAnnotationModal false s))).

(** [saveHighlight]; [random36] and [now] are what [Math.random] (printed
    in base 36) and [Date.now] return when the new record is built. *)
Definition saveHighlight (random36 : jsstring) (now : Z) (s : State) : State :=
  closeAnnotationModal
    (if truthy_opt (editingHighlightId s) then
       setHighlights
         (List.map (fun h =>
            if strict_eq (id h) (editingHighlightId s)
            then with_comment (activeNote s) h else h) (highlights s)) s
     else
       let newHighlight :=
         {| id := newId random36;
            page := currentPage s;
            text := selectedText s;
            color := lit "bg-stone-100";
            comment := Some (activeNote s);
            timestamp := now;
            rects := [] |} in
       setHighlights (newHighlight :: highlights s) s).

Definition addHighlight (color : jsstring) (random36 : jsstring) (now : Z)
    (s : State) : State :=
  let newHighlight :=
    {| id := newId random36;
       page := currentPage s;
       text := selectedText s;
       color := color;
       comment := None;
       timestamp := now;
       rects := [] |} in
  setSelectedText [] (setHighlights (newHighlight :: highlights s) s).

Definition openEditModal (h : Highlight) (s : State) : State :=
  setShowAnnotationModal true
    (setEditingHighlightId (Some (id h))
      (setActiveNote (match comment h with
                      | Some c => if truthy c then c else []
                      | None => []
                      end)
        (setSelectedText (text h) s))).

(** The [onClick] of the trash button of the record whose id is [id0]. *)
Definition deleteHighlight (id0 : jsstring) (s : State) : State :=
  setHighlights (filter (fun x => id x <> id0) (highlights s)) s.

Definition step_of (m : ViewMode) : Z :=
  match m with double => 2 | single => 1 end.

Definition prevPage (s : State) : State :=
  let step := step_of (viewMode s) in
  setCurrentPage (Math_max (currentPage s - step) 1) s.

Definition nextPage (s : State) : State :=
  let step := step_of (viewMode s) in
  setCurrentPage (Math_min (currentPage s + step) (numPages s)) s.

Definition zoomIn (s : State) : State :=
  setScale (Math_min_num (scale s + 0.1) 3.0) s.

Definition zoomOut (s : State) : State :=
  setScale (Math_max_num (scale s - 0.1) 0.4) s.

(** *** Rendering *)

Inductive CanvasRef := canvasRef1 | canvasRef2.

(** The element a ref holds; [getContext('2d')] may answer [null]. *)
Record HTMLCanvasElement := mkCanvas {
  canvas_of : CanvasRef;
  has_context2d : bool
}.

(** The calls [renderPage] makes on the document and on the canvas. *)
Inductive Call :=
| getPage (pageNumber : Z)
| getViewport (pageNumber : Z) (scale : float)
| getContext (c : CanvasRef)
| setCanvasSize (c : CanvasRef)
| render (pageNumber : Z) (c : CanvasRef).

(** [renderPage(pageNumber, canvas)], as the calls it makes, in order. *)
Definition renderPage (s : State) (pageNumber : Z)
    (canvas : option HTMLCanvasElement) : list Call :=
  match pdfDoc s, canvas with
  | Some _, Some cv =>
      if (pageNumber >? numPages s) || (pageNumber <? 1) then []
      else
        [getPage pageNumber; getViewport pageNumber (scale s);
         getContext (canvas_of cv)]
        ++ (if negb (has_context2d cv) then []
            else [setCanvasSize (canvas_of cv);
                  render pageNumber (canvas_of cv)])
  | _, _ => []
  end.

(** The render effect, run after a change of document, page, scale or
    view mode; [current1] and [current2] are [canvasRef1.current] and
    [canvasRef2.current]. The two renderings are started one after the
    other; the calls of the first are listed before those of the second. *)
Definition renderEffect (s : State)
    (current1 current2 : option HTMLCanvasElement) : list Call :=
  match pdfDoc s with
  | Some _ =>
      renderPage s (currentPage s) current1
      ++ (if ViewMode_eqb (viewMode s) double && (currentPage s + 1 <=? numPages s)
          then renderPage s (currentPage s + 1) current2
          else [])
  | None => []
  end.

(** The page numbers asked of the document. *)
Definition requestedPages (calls : list Call) : list Z :=
  omap (fun c => match c with getPage n => Some n | _ => None end) calls.

End App.
Import App.

(** ** [src/App.tsx]: the rendered tree, as the events it lets through *)

Module UI.

(** Besides the component state, the work in flight: the documents being
    opened by [onFileChange] calls that have not returned from their
    awaits, and the number of [fetchDictionary] calls awaiting a reply. *)
Record World := mkWorld {
  app : State;
  loadingTasks : list PDFDocumentProxy;
  lookupsInFlight : nat
}.

Definition start : World :=
  {| app := initial; loadingTasks := []; lookupsInFlight := 0 |}.

Definition on_app (f : State -> State) (w : World) : World :=
  {| app := f (app w); loadingTasks := loadingTasks w;
     lookupsInFlight := lookupsInFlight w |}.

(** What the user and the environment can do to the page. *)
Inductive Event :=
| ChooseFile (pdf : PDFDocumentProxy)
| FileLoaded (task : nat)
| ClickViewMode (m : ViewMode)
| ClickZoomIn
| ClickZoomOut
| ClickTheme (t : Theme)
| ClickPrev
| ClickNext
| MouseUp (selection : option jsstring)
| ClickColor (c : Color) (random36 : jsstring) (now : Z)
| ClickDictionary
| LookupFulfilled (result : json)
| LookupRejected
| ClickAnnotate
| ClickDismissSelection
| ClickCard (i : nat)
| ClickTrash (i : nat)
| ClickCloseModal
| TypeNote (value : jsstring)
| ClickSave (random36 : jsstring) (now : Z)
| ClickClearDictionary.

(** [disabled] of the two navigation buttons. *)
Definition prev_disabled (s : State) : bool :=
  currentPage s <=? 1.

Definition next_disabled (s : State) : bool :=
  (currentPage s >=? numPages s)
  || (ViewMode_eqb (viewMode s) double && (currentPage s >=? numPages s - 1)).

(** [disabled] of the save button of the annotation modal. *)
Definition save_disabled (s : State) : bool :=
  negb (truthy (trim (activeNote s))).

(** One event. An element that is not rendered, or a disabled button,
    lets nothing through: the world stays as it is. Errors thrown while
    rendering are not modelled: an answered lookup whose value the panel
    cannot render (a truthy value without a [synonyms] array) ends the
    real session, while here the value is stored and the session goes
    on, so the model has the sessions of the component and more. *)
Definition step (e : Event) (w : World) : World :=
  let s := app w in
  match e with
  | ChooseFile pdf =>
      if loaded s then w
      else {| app := s; loadingTasks := loadingTasks w ++ [pdf];
              lookupsInFlight := lookupsInFlight w |}
  | FileLoaded task =>
      match loadingTasks w !! task with
      | Some pdf =>
          {| app := onFileChange pdf s;
             loadingTasks := delete task (loadingTasks w);
             lookupsInFlight := lookupsInFlight w |}
      | None => w
      end
  | ClickViewMode m => if loaded s then on_app (setViewMode m) w else w
  | ClickZoomIn => if loaded s then on_app zoomIn w else w
  | ClickZoomOut => if loaded s then on_app zoomOut w else w
  | ClickTheme t => on_app (setTheme t) w
  | ClickPrev =>
      if loaded s then (if prev_disabled s then w else on_app prevPage w) else w
  | ClickNext =>
      if loaded s then (if next_disabled s then w else on_app nextPage w) else w
  | MouseUp selection => on_app (handleMouseUp selection) w
  | ClickColor c random36 now =>
      if truthy (selectedText s) then on_app (addHighlight (bg c) random36 now) w
      else w
  | ClickDictionary =>
      if truthy (selectedText s) then
        {| app := fetchDictionary_request s; loadingTasks := loadingTasks w;
           lookupsInFlight := S (lookupsInFlight w) |}
      else w
  | LookupFulfilled result =>
      match lookupsInFlight w with
      | S n => {| app := fetchDictionary_resume result s;
                  loadingTasks := loadingTasks w; lookupsInFlight := n |}
      | O => w
      end
  | LookupRejected =>
      match lookupsInFlight w with
      | S n => {| app := s; loadingTasks := loadingTasks w; lookupsInFlight := n |}
      | O => w
      end
  | ClickAnnotate =>
      if truthy (selectedText s)
      then on_app (fun s => setShowAnnotationModal true (setActiveNote [] s)) w
      else w
  | ClickDismissSelection =>
      if truthy (selectedText s) then on_app (setSelectedText []) w else w
  | ClickCard i =>
      match highlights s !! i with
      | Some h => if truthy_opt (comment h) then on_app (openEditModal h) w else w
      | None => w
      end
  | ClickTrash i =>
      match highlights s !! i with
      | Some h => on_app (deleteHighlight (id h)) w
      | None => w
      end
  | ClickCloseModal =>
      if showAnnotationModal s then on_app closeAnnotationModal w else w
  | TypeNote value =>
      if showAnnotationModal s then on_app (setActiveNote value) w else w
  | ClickSave random36 now =>
      if showAnnotationModal s then
        (if save_disabled s then w else on_app (saveHighlight random36 now) w)
      else w
  | ClickClearDictionary =>
      if negb (isDictionaryLoading s)
         && match dictionaryResult s with Some v => truthy_json v | None => false end
      then on_app (setDictionaryResult None) w
      else w
  end.

(** A session: the events in the order they happen. *)
Definition run (events : list Event) (w : World) : World :=
  fold_left (fun w e => step e w) events w.

End UI.
Import UI.

(** ** Sessions of page navigation *)

Module Navigation.

(** The actions that bear on the page shown: the two navigation handlers
    and the view-mode toggle that sets their step. *)
Inductive Action := GoPrev | GoNext | SwitchTo (m : ViewMode).

Definition perform (a : Action) (s : State) : State :=
  match a with
  | GoPrev => prevPage s
  | GoNext => nextPage s
  | SwitchTo m => setViewMode m s
  end.

(** The states passed through, one after each action. *)
Fixpoint states (actions : list Action) (s : State) : list State :=
  match actions with
  | [] => []
  | a :: actions' => perform a s :: states actions' (perform a s)
  end.

(** The session never switches to the single-page view. *)
Definition book_view_only (events : list Event) : bool :=
  forallb (fun e => match e with
                    | ClickViewMode single => false
                    | _ => true
                    end) events.

End Navigation.
Import Navigation.

(** ** Identifiers drawn during a session *)

Module Draws.

(** The ids of a collection, in order. *)
Definition ids (l : list Highlight) : list jsstring := List.map id l.

(** The event draws no identifier, or the one it draws is the id of no
    record of the collection at that moment. [ClickSave] draws one only
    when it creates a record. *)
Definition draw_unused (e : Event) (w : World) : bool :=
  match e with
  | ClickColor _ random36 _ =>
      bool_decide (newId random36 ∉ ids (highlights (app w)))
  | ClickSave random36 _ =>
      truthy_opt (editingHighlightId (app w))
      || bool_decide (newId random36 ∉ ids (highlights (app w)))
  | _ => true
  end.

Fixpoint draws_unused (events : list Event) (w : World) : bool :=
  match events with
  | [] => true
  | e :: events' => draw_unused e w && draws_unused events' (step e w)
  end.

End Draws.
Import Draws.

(** ** Sample data *)

Module Samples.

Definition quoted (s : jsstring) : jsstring := [34%N] ++ s ++ [34%N].

(** The reply
    [{"word":"casa","meaning":"...","synonyms":["lar","moradia","residência"]}]. *)
Definition casa_reply : jsstring :=
  lit "{" ++ quoted (lit "word") ++ lit ":" ++ quoted (lit "casa")
  ++ lit "," ++ quoted (lit "meaning") ++ lit ":" ++ quoted (lit "...")
  ++ lit "," ++ quoted (lit "synonyms") ++ lit ":["
  ++ quoted (lit "lar") ++ lit "," ++ quoted (lit "moradia") ++ lit ","
  ++ quoted (lit "residência") ++ lit "]}".

(** The object that reply denotes. *)
Definition casa_object : json :=
  JObject [ (lit "word", JString (lit "casa"));
            (lit "meaning", JString (lit "..."));
            (lit "synonyms",
             JArray [JString (lit "lar"); JString (lit "moradia");
                     JString (lit "residência")]) ].

(** A parser that agrees with [JSON.parse] on [casa_reply] and on every
    text that is not JSON; it is used on no other text. *)
Definition parse_casa (t : jsstring) : option json :=
  if bool_decide (t = casa_reply) then Some casa_object else None.

(** Two highlights made while [Math.random()] returns 0.5 both times
    (0.5 prints as [0.i] in base 36). *)
Definition session_equal_draws : list Event :=
  [ MouseUp (Some (lit "casa"));
    ClickColor Yellow (lit "0.i") 1000;
    MouseUp (Some (lit "lar"));
    ClickColor Blue (lit "0.i") 2000 ].

(** Two annotations created under the same draw, the newer one then
    opened from the sidebar and its note rewritten. *)
Definition session_shared_id : list Event :=
  [ MouseUp (Some (lit "casa")); ClickAnnotate;
    TypeNote (lit "primeira"); ClickSave (lit "0.i") 1000;
    MouseUp (Some (lit "lar")); ClickAnnotate;
    TypeNote (lit "segunda"); ClickSave (lit "0.i") 2000 ].

Definition session_edit_first : list Event :=
  [ ClickCard 0%nat; TypeNote (lit "revista"); ClickSave (lit "0.z") 3000 ].

(** A second file chosen while the first is still being opened; the
    reader zooms and switches to single-page view before the second
    document arrives. *)
Definition session_second_load : list Event :=
  [ ChooseFile (mkPdf 3); ChooseFile (mkPdf 7); FileLoaded 0%nat;
    ClickViewMode single; ClickZoomIn; ClickNext; FileLoaded 0%nat ].

(** One page forward in single-page view, then back to the book view. *)
Definition session_even_start : list Event :=
  [ ChooseFile (mkPdf 5); FileLoaded 0%nat;
    ClickViewMode single; ClickNext; ClickViewMode double ].

(** Reading a five-page document in book view only. *)
Definition session_book_view : list Event :=
  [ ChooseFile (mkPdf 5); FileLoaded 0%nat;
    ClickNext; ClickNext; ClickNext; ClickPrev; ClickZoomIn; ClickNext ].

(** Two annotations created under different draws, the newer one opened
    from the sidebar and a new note typed, not yet saved. *)
Definition session_open_editor : list Event :=
  [ MouseUp (Some (lit "casa")); ClickAnnotate;
    TypeNote (lit "primeira"); ClickSave (lit "0.i") 1000;
    MouseUp (Some (lit "lar")); ClickAnnotate;
    TypeNote (lit "segunda"); ClickSave (lit "0.k9") 2000;
    ClickCard 0%nat; TypeNote (lit "revista") ].

Definition lar_record : Highlight :=
  {| id := lit "k9"; page := 1; text := lit "lar";
     color := lit "bg-stone-100"; comment := Some (lit "segunda");
     rects := []; timestamp := 2000 |}.

Definition casa_record : Highlight :=
  {| id := lit "i"; page := 1; text := lit "casa";
     color := lit "bg-stone-100"; comment := Some (lit "primeira");
     rects := []; timestamp := 1000 |}.

End Samples.
Import Samples.

(** ** Whole sessions *)

Module Sessions.

(** Membership of a scale in a list, by bitwise equality. *)
Definition scale_mem (x : float) (l : list float) : bool :=
  existsb (PrimFloat.Leibniz.eqb x) l.

(** The scales the two zoom handlers reach from those of [frontier],
    added to [seen]. *)
Fixpoint scales_from (fuel : nat) (seen frontier : list float) : list float :=
  match fuel with
  | O => seen
  | S fuel' =>
      match frontier with
      | [] => seen
      | x :: rest =>
          if scale_mem x seen then scales_from fuel' seen rest
          else scales_from fuel' (x :: seen)
                 (rest ++ [scale (zoomIn (setScale x initial));
                           scale (zoomOut (setScale x initial))])
      end
  end.

(** The scales reachable from the initial one. *)
Definition reachable_scales : list float :=
  Eval vm_compute in scales_from 1000 [] [scale initial].

(** Every document chosen in the session has at least one page. *)
Definition documents_have_pages (events : list Event) : bool :=
  forallb (fun e => match e with
                    | ChooseFile pdf => 1 <=? pdf_numPages pdf
                    | _ => true
                    end) events.

(** The readings of [Date.now] the events carry never go back, starting
    from [last]. *)
Fixpoint clock_from (last : Z) (events : list Event) : bool :=
  match events with
  | [] => true
  | ClickColor _ _ now :: events' => (last <=? now) && clock_from now events'
  | ClickSave _ now :: events' => (last <=? now) && clock_from now events'
  | _ :: events' => clock_from last events'
  end.

(** No lookup is answered during the session. *)
Definition no_fulfilment (events : list Event) : bool :=
  forallb (fun e => match e with LookupFulfilled _ => false | _ => true end)
          events.

(** The event is none of the three that act on the collection. *)
Definition leaves_collection (e : Event) : bool :=
  match e with
  | ClickColor _ _ _ | ClickSave _ _ | ClickTrash _ => false
  | _ => true
  end.

(** The class names a record can carry as its color. *)
Definition palette : list jsstring :=
  List.map bg COLORS ++ [lit "bg-stone-100"].

(** What every record of a session satisfies. *)
Definition record_tidy (h : Highlight) : Prop :=
  1 <= page h
  /\ (forallb is_whitespace (text h) = true -> text h = [])
  /\ color h ∈ palette
  /\ (forall c, comment h = Some c -> forallb is_whitespace c = false)
  /\ (length (id h) <= 9)%nat.

(** Every document being opened has a page, and when a document is
    loaded the page count is its own and the current page is one of its
    pages. *)
Definition pages_hold (w : World) : Prop :=
  Forall (fun pdf => 1 <= pdf_numPages pdf) (loadingTasks w)
  /\ (forall pdf, pdfDoc (app w) = Some pdf ->
        numPages (app w) = pdf_numPages pdf
        /\ 1 <= currentPage (app w) <= numPages (app w)).

(** What every state of a session satisfies. *)
Definition tidy (s : State) : Prop :=
  1 <= currentPage s
  /\ (forallb is_whitespace (selectedText s) = true -> selectedText s = [])
  /\ (showAnnotationModal s = false ->
      editingHighlightId s = None /\ activeNote s = [])
  /\ Forall record_tidy (highlights s).

End Sessions.
Import Sessions.

(** ** More sample sessions *)

Module Scenes.

(** Two annotations in the sidebar, the modal closed. *)
Definition two_notes : World :=
  run (session_open_editor ++ [ClickCloseModal]) start.

(** The same with the word "moradia" selected. *)
Definition two_notes_selected : World :=
  step (MouseUp (Some (lit "moradia"))) two_notes.


End Scenes.
Import Scenes.

(** * Properties *)

(** A decidable closed proposition, settled by evaluating its decision. *)
Ltac by_computation :=
  match goal with
  | |- ?P => apply (@bool_decide_unpack P _); vm_compute; exact I
  end.

(** ** Strings *)

Example not_found_message_units :
  not_found_message =
  [78; 227; 111; 32; 102; 111; 105; 32; 112; 111; 115; 115; 237; 118; 101;
   108; 32; 101; 110; 99; 111; 110; 116; 114; 97; 114; 32; 97; 32; 100;
   101; 102; 105; 110; 105; 231; 227; 111; 46]%N.
Proof. vm_compute. reflexivity. Qed.

Example trim_inner_space :
  trim (lit "  uma casa ") = lit "uma casa".
Proof. reflexivity. Qed.

Example trim_blank : trim [32; 9; 10; 160; 8195; 65279]%N = [].
Proof. reflexivity. Qed.

Example zoomIn_initial : scale (zoomIn initial) = 1.3%float.
Proof. reflexivity. Qed.

Example zoomIn_at_top : scale (zoomIn (setScale 3.0 initial)) = 3.0%float.
Proof. reflexivity. Qed.

Example zoomOut_at_bottom : scale (zoomOut (setScale 0.4 initial)) = 0.4%float.
Proof. reflexivity. Qed.

Example newId_half : newId (lit "0.i") = lit "i".
Proof. reflexivity. Qed.

Example newId_zero : newId (lit "0") = [].
Proof. reflexivity. Qed.

Example newId_long : newId (lit "0.4fzyo82mvyr") = lit "4fzyo82mv".
Proof. reflexivity. Qed.

(** ** Pagination *)

Lemma perform_numPages a s : numPages (perform a s) = numPages s.
Proof. destruct a; reflexivity. Qed.

Lemma perform_in_range a s :
  1 <= currentPage s <= numPages s ->
  1 <= currentPage (perform a s) <= numPages (perform a s).
Proof.
  intros Hr. destruct a; cbn; unfold Math_max, Math_min; try lia.
  - destruct (viewMode s); cbn; lia.
  - destruct (viewMode s); cbn; lia.
Qed.

Lemma states_in_range actions : forall s,
  1 <= currentPage s <= numPages s ->
  Forall (fun s' => numPages s' = numPages s
                    /\ 1 <= currentPage s' <= numPages s')
         (states actions s).
Proof.
  induction actions as [|a actions IH]; intros s Hr; cbn [states].
  - constructor.
  - pose proof (perform_in_range a s Hr) as Hr'.
    pose proof (perform_numPages a s) as Hn.
    constructor; [split; assumption|].
    specialize (IH _ Hr'). rewrite Hn in IH. exact IH.
Qed.

(** C1. On a document of [numPages >= 1] pages, starting from page 1, after
    each action of any sequence of [prevPage], [nextPage] and view-mode
    switches the page count is the same and
    [1 <= currentPage <= numPages]. *)
Theorem currentPage_in_range (s : State) (actions : list Action) :
  1 <= numPages s ->
  currentPage s = 1 ->
  Forall (fun s' => numPages s' = numPages s
                    /\ 1 <= currentPage s' <= numPages s')
         (states actions s).
Proof.
  intros Hn H1. apply states_in_range. lia.
Qed.

Lemma currentPage_in_range_witness :
  1 <= numPages (onFileChange (mkPdf 4) initial)
  /\ currentPage (onFileChange (mkPdf 4) initial) = 1
  /\ Forall (fun s' => numPages s' = numPages (onFileChange (mkPdf 4) initial)
                       /\ 1 <= currentPage s' <= numPages s')
       (states [GoNext; GoNext; GoNext; SwitchTo single; GoPrev; GoNext;
                GoNext; SwitchTo double; GoPrev; GoPrev; GoPrev]
               (onFileChange (mkPdf 4) initial)).
Proof.
  split; [cbn; lia|]. split; [reflexivity|].
  apply (currentPage_in_range (onFileChange (mkPdf 4) initial)); [cbn; lia | reflexivity].
Defined.

(** ** Lookup client *)

Section Lookup.

Variable JSON_parse : jsstring -> option json.
Variable Error : Type.

(** A request that fails is not answered by the fallback: the rejection
    reaches the caller. *)
Lemma getWordInsights_rejected text (e : Error) :
  getWordInsights JSON_parse Error text (Rejected e) = Rejected e.
Proof. reflexivity. Qed.

(** C2. When the text of the reply parses, [getWordInsights] resolves to
    the parsed value itself; when parsing throws, it resolves to the
    object whose [word] is the text looked up, whose [meaning] is
    "Não foi possível encontrar a definição." and whose [synonyms] is the
    empty array. *)
Theorem getWordInsights_result (text : jsstring)
    (response : GenerateContentResponse) :
  (forall data,
      JSON_parse (ToString (response_text response)) = Some data ->
      getWordInsights JSON_parse Error text (Fulfilled response)
      = Fulfilled data)
  /\ (JSON_parse (ToString (response_text response)) = None ->
      getWordInsights JSON_parse Error text (Fulfilled response)
      = Fulfilled
          (JObject
             [ (lit "word", JString text);
               (lit "meaning",
                JString (lit "Não foi possível encontrar a definição."));
               (lit "synonyms", JArray []) ])).
Proof.
  split.
  - intros data Hparse. unfold getWordInsights. rewrite Hparse. reflexivity.
  - intros Hparse. unfold getWordInsights. rewrite Hparse. reflexivity.
Qed.

End Lookup.

Lemma getWordInsights_result_witness :
  (parse_casa (ToString (response_text (mkResponse (Some casa_reply))))
   = Some casa_object
   /\ getWordInsights parse_casa unit (lit "casa")
        (Fulfilled (mkResponse (Some casa_reply)))
      = Fulfilled casa_object)
  /\ (parse_casa (ToString (response_text (mkResponse None))) = None
      /\ getWordInsights parse_casa unit (lit "casa")
           (Fulfilled (mkResponse None))
         = Fulfilled
             (JObject
                [ (lit "word", JString (lit "casa"));
                  (lit "meaning",
                   JString (lit "Não foi possível encontrar a definição."));
                  (lit "synonyms", JArray []) ])).
Proof.
  split; (split; [vm_compute; reflexivity|]).
  - apply (proj1 (getWordInsights_result parse_casa unit (lit "casa")
                    (mkResponse (Some casa_reply)))).
    vm_compute; reflexivity.
  - apply (proj2 (getWordInsights_result parse_casa unit (lit "casa")
                    (mkResponse None))).
    vm_compute; reflexivity.
Defined.

(** The fallback for "casa", as the object the caller receives. *)
Example fallback_casa :
  DictionaryResult_object (fallback (lit "casa"))
  = JObject [ (lit "word", JString (lit "casa"));
              (lit "meaning",
               JString (lit "Não foi possível encontrar a definição."));
              (lit "synonyms", JArray []) ].
Proof. reflexivity. Qed.

(** ** Annotation store *)

Lemma ids_map_keeps (f : Highlight -> Highlight) (l : list Highlight) :
  (forall h, id (f h) = id h) -> ids (List.map f l) = ids l.
Proof.
  intros Hf. unfold ids. rewrite List.map_map.
  apply List.map_ext. exact Hf.
Qed.

Lemma elem_of_ids (h : Highlight) (l : list Highlight) :
  h ∈ l -> id h ∈ ids l.
Proof.
  intros Hin. apply list_elem_of_In, in_map, list_elem_of_In, Hin.
Qed.

Lemma ids_filter_subset (P : Highlight -> Prop) `{forall h, Decision (P h)}
    (l : list Highlight) (i : jsstring) :
  i ∈ ids (filter P l) -> i ∈ ids l.
Proof.
  unfold ids. rewrite !list_elem_of_In, !in_map_iff.
  intros (h & Hid & Hin). exists h. split; [assumption|].
  apply list_elem_of_In. apply list_elem_of_In in Hin.
  apply list_elem_of_filter in Hin. tauto.
Qed.

Lemma NoDup_ids_filter (P : Highlight -> Prop) `{forall h, Decision (P h)}
    (l : list Highlight) :
  NoDup (ids l) -> NoDup (ids (filter P l)).
Proof.
  induction l as [|a l IH]; intros Hnd; [exact Hnd|].
  cbn in Hnd. apply NoDup_cons in Hnd as [Ha Hl].
  rewrite filter_cons. destruct (decide (P a)).
  - cbn. apply NoDup_cons. split; [|auto].
    intros Hin. apply Ha. eapply ids_filter_subset, Hin.
  - auto.
Qed.

(** Editing by id: a record keeps its place, and changes only when its id
    is the one edited. *)
Lemma edit_map_lookup (eid note : jsstring) (l : list Highlight) (i : nat) :
  List.map (fun h => if strict_eq (id h) (Some eid)
                     then with_comment note h else h) l !! i
  = (fun h => if bool_decide (id h = eid) then with_comment note h else h)
      <$> (l !! i).
Proof.
  revert i. induction l as [|a l IH]; intros [|i]; cbn; auto.
Qed.

Lemma edit_map_other (eid note : jsstring) (l : list Highlight) :
  eid ∉ ids l ->
  List.map (fun h => if strict_eq (id h) (Some eid)
                     then with_comment note h else h) l = l.
Proof.
  induction l as [|a l IH]; intros Hnot; [reflexivity|].
  cbn in *. apply not_elem_of_cons in Hnot as [Hne Hl].
  rewrite bool_decide_eq_false_2 by congruence.
  f_equal. auto.
Qed.

Lemma edit_map_insert (note : jsstring) (l : list Highlight) :
  forall (i : nat) (h : Highlight),
  NoDup (ids l) ->
  l !! i = Some h ->
  List.map (fun x => if strict_eq (id x) (Some (id h))
                     then with_comment note x else x) l
  = <[i := with_comment note h]> l.
Proof.
  induction l as [|a l IH]; intros i h Hnd Hi; [discriminate|].
  cbn in Hnd. apply NoDup_cons in Hnd as [Ha Hl].
  destruct i as [|i]; cbn in Hi.
  - injection Hi as ->. cbn.
    rewrite bool_decide_eq_true_2 by reflexivity.
    f_equal. apply edit_map_other. exact Ha.
  - cbn. assert (id a <> id h) as Hne.
    { intros Heq. apply Ha. rewrite Heq.
      apply elem_of_ids. eapply list_elem_of_lookup_2, Hi. }
    rewrite bool_decide_eq_false_2 by exact Hne.
    f_equal. apply IH; assumption.
Qed.

(** C3 fails as stated: the id of the new record need not be fresh. After
    one highlight made with the draw [0.i], a second one made with the
    same draw carries the id of the first. *)
Lemma addHighlight_fresh_id_counterexample :
  let s := app (run [ MouseUp (Some (lit "casa"));
                      ClickColor Yellow (lit "0.i") 1000;
                      MouseUp (Some (lit "lar")) ] start) in
  let s' := addHighlight (bg Blue) (lit "0.i") 2000 s in
  selectedText s = lit "lar"
  /\ ids (highlights s) = [lit "i"]
  /\ ids (highlights s') = [lit "i"; lit "i"]
  /\ (exists h, highlights s' !! 0%nat = Some h /\ id h ∈ ids (highlights s)).
Proof.
  cbv zeta. split; [vm_compute; reflexivity|].
  split; [vm_compute; reflexivity|].
  split; [vm_compute; reflexivity|].
  eexists. split; [reflexivity|].
  vm_compute. apply list_elem_of_here.
Qed.

(** C3, amended. [addHighlight(color)] puts first a new record whose id is
    the identifier drawn for it (nothing compares it with the ids in
    use), whose page is the current page, whose text is the selected
    text, whose color is [color] and which has no comment; the records
    already there follow unchanged and in order; the selected text is
    cleared and nothing else changes. *)
Theorem addHighlight_prepends (s : State) (c random36 : jsstring) (now : Z) :
  let s' := addHighlight c random36 now s in
  highlights s'
  = {| id := newId random36; page := currentPage s; text := selectedText s;
       color := c; comment := None; rects := []; timestamp := now |}
    :: highlights s
  /\ selectedText s' = []
  /\ s' = setSelectedText [] (setHighlights (highlights s') s).
Proof. cbv zeta. repeat split. Qed.

(** Editing keeps every field of a record but its comment. *)
Lemma with_comment_fields (note : jsstring) (h : Highlight) :
  id (with_comment note h) = id h
  /\ page (with_comment note h) = page h
  /\ text (with_comment note h) = text h
  /\ color (with_comment note h) = color h
  /\ timestamp (with_comment note h) = timestamp h
  /\ rects (with_comment note h) = rects h
  /\ comment (with_comment note h) = Some note.
Proof. repeat split. Qed.

(** Whatever the ids, saving an edit keeps the number of records, leaves
    every record with another id as it is and in its place, and changes
    the comment alone in the records that carry the edited id. *)
Lemma saveHighlight_edit_lookup (s : State) (eid random36 : jsstring)
    (now : Z) (i : nat) :
  editingHighlightId s = Some eid ->
  truthy eid = true ->
  highlights (saveHighlight random36 now s) !! i
  = (fun h => if bool_decide (id h = eid)
              then with_comment (activeNote s) h else h)
      <$> (highlights s !! i).
Proof.
  intros Heid Htruthy. unfold saveHighlight.
  rewrite Heid. cbn [truthy_opt]. rewrite Htruthy.
  cbn -[List.map strict_eq]. apply edit_map_lookup.
Qed.

(** C5 fails as stated: two records that share an id are both rewritten
    when one of them is edited. *)
Lemma saveHighlight_other_record_counterexample :
  let s := app (run session_shared_id start) in
  let s' := app (run session_edit_first (run session_shared_id start)) in
  List.map text (highlights s) = [lit "lar"; lit "casa"]
  /\ List.map comment (highlights s)
     = [Some (lit "segunda"); Some (lit "primeira")]
  /\ List.map text (highlights s') = [lit "lar"; lit "casa"]
  /\ List.map comment (highlights s')
     = [Some (lit "revista"); Some (lit "revista")]
  /\ highlights s' !! 1%nat <> highlights s !! 1%nat.
Proof.
  cbv zeta. repeat (split; [vm_compute; reflexivity|]).
  vm_compute. discriminate.
Qed.

(** C5, amended. In a collection whose ids are pairwise distinct, saving
    while the record [h] at position [i] is the one being edited (its
    id, a non-empty string, is [editingHighlightId]) replaces that record,
    in place, by [h] with the note as comment; [h]'s id, page, text,
    color, timestamp and rects are kept, and so is every other record. *)
Theorem saveHighlight_edits_comment_only (s : State) (i : nat)
    (h : Highlight) (random36 : jsstring) (now : Z) :
  NoDup (ids (highlights s)) ->
  highlights s !! i = Some h ->
  editingHighlightId s = Some (id h) ->
  truthy (id h) = true ->
  highlights (saveHighlight random36 now s)
  = <[i := with_comment (activeNote s) h]> (highlights s)
  /\ (forall j, j <> i ->
        highlights (saveHighlight random36 now s) !! j = highlights s !! j)
  /\ highlights (saveHighlight random36 now s) !! i
     = Some {| id := id h; page := page h; text := text h; color := color h;
               comment := Some (activeNote s); rects := rects h;
               timestamp := timestamp h |}.
Proof.
  intros Hnd Hi Heid Htruthy.
  assert (highlights (saveHighlight random36 now s)
          = <[i := with_comment (activeNote s) h]> (highlights s)) as Heq.
  { unfold saveHighlight. rewrite Heid. cbn [truthy_opt]. rewrite Htruthy.
    cbn -[List.map strict_eq]. apply edit_map_insert; assumption. }
  split; [exact Heq|]. rewrite Heq. split.
  - intros j Hj. apply list_lookup_insert_ne. congruence.
  - apply list_lookup_insert_eq. eapply lookup_lt_Some, Hi.
Qed.

Lemma saveHighlight_edits_comment_only_witness :
  let s := app (run session_open_editor start) in
  NoDup (ids (highlights s))
  /\ highlights s !! 0%nat = Some lar_record
  /\ editingHighlightId s = Some (id lar_record)
  /\ truthy (id lar_record) = true
  /\ highlights (saveHighlight (lit "0.z") 3000 s)
     = [with_comment (lit "revista") lar_record; casa_record].
Proof.
  cbv zeta.
  assert (NoDup (ids (highlights (app (run session_open_editor start)))))
    as Hnd.
  { by_computation. }
  assert (highlights (app (run session_open_editor start)) !! 0%nat
          = Some lar_record) as Hi by (vm_compute; reflexivity).
  assert (editingHighlightId (app (run session_open_editor start))
          = Some (id lar_record)) as Heid by (vm_compute; reflexivity).
  assert (truthy (id lar_record) = true) as Ht by reflexivity.
  repeat (split; [assumption|]).
  rewrite (proj1 (saveHighlight_edits_comment_only _ 0%nat lar_record
                    (lit "0.z") 3000 Hnd Hi Heid Ht)).
  vm_compute. reflexivity.
Defined.

Lemma filter_all {A} (P : A -> Prop) `{forall x, Decision (P x)} (l : list A) :
  (forall x, x ∈ l -> P x) -> filter P l = l.
Proof.
  induction l as [|a l IH]; intros Hall; [reflexivity|].
  rewrite filter_cons_True by (apply Hall, list_elem_of_here).
  f_equal. apply IH. intros x Hx. apply Hall, list_elem_of_further, Hx.
Qed.

(** Deleting by id twice is deleting once. *)
Lemma deleteHighlight_idempotent (id0 : jsstring) (s : State) :
  deleteHighlight id0 (deleteHighlight id0 s) = deleteHighlight id0 s.
Proof.
  unfold deleteHighlight, setHighlights. cbn. f_equal.
  apply list_filter_filter_l. tauto.
Qed.

Lemma filter_id_delete (id0 : jsstring) (l : list Highlight) :
  forall (i : nat) (h : Highlight),
  NoDup (ids l) -> l !! i = Some h -> id h = id0 ->
  filter (fun x => id x <> id0) l = delete i l.
Proof.
  induction l as [|a l IH]; intros i h Hnd Hi Hid; [discriminate|].
  cbn in Hnd. apply NoDup_cons in Hnd as [Ha Hl].
  rewrite filter_cons. destruct i as [|i]; cbn in Hi |- *.
  - injection Hi as ->. rewrite decide_False by tauto.
    apply filter_all. intros x Hx Heq.
    apply Ha. rewrite Hid, <- Heq. apply elem_of_ids, Hx.
  - assert (id a <> id0) as Hne.
    { intros Heq. apply Ha. rewrite Heq, <- Hid.
      apply elem_of_ids. eapply list_elem_of_lookup_2, Hi. }
    rewrite decide_True by exact Hne. f_equal. eapply IH; eassumption.
Qed.

(** C6 fails as stated: in a collection where two records share an id,
    the trash button of one of them removes the other as well. *)
Lemma deleteHighlight_shared_id_counterexample :
  let w := run session_shared_id start in
  List.map text (highlights (app w)) = [lit "lar"; lit "casa"]
  /\ ids (highlights (app w)) = [lit "i"; lit "i"]
  /\ List.map text (delete 0%nat (highlights (app w))) = [lit "casa"]
  /\ highlights (app (step (ClickTrash 0%nat) w)) = []
  /\ highlights (deleteHighlight (lit "i") (app w))
     <> delete 0%nat (highlights (app w)).
Proof.
  cbv zeta. repeat (split; [vm_compute; reflexivity|]).
  vm_compute. discriminate.
Qed.

(** The records kept and the records dropped make up the collection. *)
Lemma filter_id_split (id0 : jsstring) (l : list Highlight) :
  filter (fun x => id x <> id0) l ++ filter (fun x => id x = id0) l ≡ₚ l.
Proof.
  rewrite <- (filter_app_complement (fun x => id x <> id0) l) at 3.
  f_equiv. erewrite list_filter_iff; [reflexivity|].
  intros x. cbn. destruct (decide (id x = id0)); tauto.
Qed.

(** C6, amended. Deleting by an id keeps, in their order, exactly the
    records whose id differs from it and drops every record that has it:
    the result is a subsequence of the collection, a record is in it if
    and only if it was in the collection under another id, and together
    with the records of that id it makes up the collection. When no
    record has the id, the state is left as it is; when ids are pairwise
    distinct and the record at position [i] has the id, exactly that
    record goes: the result is the collection without position [i].
    Nothing but the collection changes, and deleting once more changes
    nothing. *)
Theorem deleteHighlight_removes_matching (s : State) (id0 : jsstring) :
  let l := highlights s in
  let l' := highlights (deleteHighlight id0 s) in
  sublist l' l
  /\ (forall h, h ∈ l' <-> h ∈ l /\ id h <> id0)
  /\ l' ++ filter (fun h => id h = id0) l ≡ₚ l
  /\ (id0 ∉ ids l -> deleteHighlight id0 s = s)
  /\ (forall i h, NoDup (ids l) -> l !! i = Some h -> id h = id0 ->
        l' = delete i l)
  /\ deleteHighlight id0 s
     = setHighlights (highlights (deleteHighlight id0 s)) s
  /\ deleteHighlight id0 (deleteHighlight id0 s) = deleteHighlight id0 s.
Proof.
  cbv zeta. cbn [deleteHighlight setHighlights highlights].
  split; [apply sublist_filter|].
  split; [intros h; rewrite list_elem_of_filter; tauto|].
  split; [apply filter_id_split|].
  split.
  - intros Hnot. unfold deleteHighlight.
    rewrite filter_all.
    + destruct s; reflexivity.
    + intros h Hh Heq. apply Hnot. rewrite <- Heq. apply elem_of_ids, Hh.
  - split; [|split; [reflexivity|apply deleteHighlight_idempotent]].
    intros i h Hnd Hi Hid. eapply filter_id_delete; eassumption.
Qed.

Lemma deleteHighlight_removes_matching_witness :
  let s := app (run session_open_editor start) in
  highlights s !! 0%nat = Some lar_record
  /\ highlights (deleteHighlight (lit "k9") s) = delete 0%nat (highlights s)
  /\ highlights (deleteHighlight (lit "k9") s)
     = [casa_record]
  /\ deleteHighlight (lit "zz") s = s.
Proof.
  cbv zeta.
  pose proof (deleteHighlight_removes_matching
                (app (run session_open_editor start)) (lit "k9"))
    as (_ & _ & _ & _ & Hdel & _).
  pose proof (deleteHighlight_removes_matching
                (app (run session_open_editor start)) (lit "zz"))
    as (_ & _ & _ & Hid & _).
  cbv zeta in Hdel, Hid.
  split; [vm_compute; reflexivity|].
  split; [apply (Hdel 0%nat lar_record)|].
  - by_computation.
  - vm_compute; reflexivity.
  - reflexivity.
  - split; [vm_compute; reflexivity|].
    apply Hid. by_computation.
Defined.

(** *** Saving a note *)

Lemma trimStart_blank (s : jsstring) :
  forallb is_whitespace s = true -> trimStart s = [].
Proof.
  induction s as [|c s IH]; [reflexivity|].
  cbn [forallb trimStart]. intros [Hc Hs]%andb_prop.
  rewrite Hc. auto.
Qed.

Lemma trimStart_nil_blank (s : jsstring) :
  trimStart s = [] -> forallb is_whitespace s = true.
Proof.
  induction s as [|c s IH]; [reflexivity|].
  cbn [forallb trimStart]. destruct (is_whitespace c); [exact IH|discriminate].
Qed.

(** What [trimStart] leaves does not begin with white space. *)
Lemma trimStart_head (s : jsstring) (c : N) (r : jsstring) :
  trimStart s = c :: r -> is_whitespace c = false.
Proof.
  induction s as [|d s IH]; cbn [trimStart]; [discriminate|].
  destruct (is_whitespace d) eqn:Hd; [exact IH|].
  intros [= -> _]. exact Hd.
Qed.

(** [trim] yields the empty string exactly on the strings made of white
    space only, the empty one among them. *)
Lemma trim_nil_iff (s : jsstring) :
  trim s = [] <-> forallb is_whitespace s = true.
Proof.
  unfold trim. split.
  - intros Hnil.
    assert (trimStart (rev (trimStart s)) = []) as Hrev.
    { apply (f_equal (@rev N)) in Hnil. rewrite rev_involutive in Hnil.
      exact Hnil. }
    apply trimStart_nil_blank in Hrev.
    destruct (trimStart s) as [|c r] eqn:Hs.
    + apply trimStart_nil_blank, Hs.
    + apply trimStart_head in Hs.
      rewrite forallb_forall in Hrev.
      specialize (Hrev c). rewrite Hs in Hrev.
      assert (false = true); [|discriminate].
      apply Hrev. apply -> in_rev. left. reflexivity.
  - intros Hblank. rewrite (trimStart_blank s Hblank). reflexivity.
Qed.

Lemma save_disabled_iff (s : State) :
  save_disabled s = true <-> forallb is_whitespace (activeNote s) = true.
Proof.
  unfold save_disabled. rewrite <- trim_nil_iff.
  destruct (trim (activeNote s)); cbn; split; congruence.
Qed.

(** C7. With the annotation modal open and a note that is empty or made
    of white space only, the save button lets nothing through: the whole
    state is as before, and so the modal is still open. *)
Theorem blank_note_not_saved (w : World) (random36 : jsstring) (now : Z) :
  showAnnotationModal (app w) = true ->
  forallb is_whitespace (activeNote (app w)) = true ->
  step (ClickSave random36 now) w = w
  /\ showAnnotationModal (app (step (ClickSave random36 now) w)) = true.
Proof.
  intros Hopen Hblank.
  assert (step (ClickSave random36 now) w = w) as Hstep.
  { cbn [step]. rewrite Hopen.
    apply save_disabled_iff in Hblank. rewrite Hblank. reflexivity. }
  rewrite Hstep. split; [reflexivity|exact Hopen].
Qed.

Lemma blank_note_not_saved_witness :
  let w := run [ MouseUp (Some (lit "casa")); ClickAnnotate;
                 TypeNote [32; 9; 10; 160; 8195; 65279]%N ] start in
  showAnnotationModal (app w) = true
  /\ forallb is_whitespace (activeNote (app w)) = true
  /\ step (ClickSave (lit "0.i") 1000) w = w
  /\ showAnnotationModal (app (step (ClickSave (lit "0.i") 1000) w)) = true.
Proof.
  cbv zeta.
  split; [reflexivity|]. split; [reflexivity|].
  apply blank_note_not_saved; reflexivity.
Defined.

(** A note with anything else in it is saved, by [saveHighlight]. *)
Lemma written_note_saved (w : World) (random36 : jsstring) (now : Z) :
  showAnnotationModal (app w) = true ->
  forallb is_whitespace (activeNote (app w)) = false ->
  step (ClickSave random36 now) w = on_app (saveHighlight random36 now) w.
Proof.
  intros Hopen Hnote. cbn [step]. rewrite Hopen.
  destruct (save_disabled (app w)) eqn:Hd; [|reflexivity].
  apply save_disabled_iff in Hd. congruence.
Qed.

(** *** Identifiers *)

(** C9 fails as stated: two highlights made under the same draw are both
    kept, with the same id. *)
Lemma ids_distinct_counterexample :
  ids (highlights (app (run session_equal_draws start)))
  = [lit "i"; lit "i"]
  /\ ~ NoDup (ids (highlights (app (run session_equal_draws start)))).
Proof.
  assert (ids (highlights (app (run session_equal_draws start)))
          = [lit "i"; lit "i"]) as Hids by (vm_compute; reflexivity).
  split; [exact Hids|]. rewrite Hids.
  intros [Hin _]%NoDup_cons. apply Hin, list_elem_of_here.
Qed.

Lemma NoDup_ids_edit (eid : option jsstring) (note : jsstring)
    (l : list Highlight) :
  NoDup (ids l) ->
  NoDup (ids (List.map (fun h => if strict_eq (id h) eid
                                  then with_comment note h else h) l)).
Proof.
  intros Hnd. rewrite ids_map_keeps; [exact Hnd|].
  intros h. destruct (strict_eq (id h) eid); reflexivity.
Qed.

(** One event keeps the ids distinct when its draw is unused. *)
Lemma step_keeps_ids_distinct (e : Event) (w : World) :
  draw_unused e w = true ->
  NoDup (ids (highlights (app w))) ->
  NoDup (ids (highlights (app (step e w)))).
Proof.
  intros Hdraw Hnd. destruct e; cbn [step draw_unused] in *.
  - destruct (loaded (app w)); exact Hnd.
  - destruct (loadingTasks w !! task); exact Hnd.
  - destruct (loaded (app w)); exact Hnd.
  - destruct (loaded (app w)); exact Hnd.
  - destruct (loaded (app w)); exact Hnd.
  - exact Hnd.
  - destruct (loaded (app w)), (prev_disabled (app w)); exact Hnd.
  - destruct (loaded (app w)), (next_disabled (app w)); exact Hnd.
  - destruct selection as [sel|]; cbn [on_app app handleMouseUp]; [|exact Hnd].
    destruct (0 <? length (trim sel))%nat; exact Hnd.
  - destruct (truthy (selectedText (app w))); [|exact Hnd].
    cbn. apply NoDup_cons. split; [|exact Hnd].
    apply bool_decide_eq_true_1 in Hdraw. exact Hdraw.
  - destruct (truthy (selectedText (app w))) eqn:Hsel; [|exact Hnd].
    cbn. unfold fetchDictionary_request. rewrite Hsel. exact Hnd.
  - destruct (lookupsInFlight w); exact Hnd.
  - destruct (lookupsInFlight w); exact Hnd.
  - destruct (truthy (selectedText (app w))); exact Hnd.
  - destruct (truthy (selectedText (app w))); exact Hnd.
  - destruct (highlights (app w) !! i) as [h|]; [|exact Hnd].
    destruct (truthy_opt (comment h)); exact Hnd.
  - destruct (highlights (app w) !! i) as [h|]; [|exact Hnd].
    cbn. apply NoDup_ids_filter, Hnd.
  - destruct (showAnnotationModal (app w)); exact Hnd.
  - destruct (showAnnotationModal (app w)); exact Hnd.
  - destruct (showAnnotationModal (app w)); [|exact Hnd].
    destruct (save_disabled (app w)); [exact Hnd|].
    cbn [on_app app]. unfold saveHighlight.
    destruct (truthy_opt (editingHighlightId (app w))); cbn.
    + apply NoDup_ids_edit, Hnd.
    + apply NoDup_cons. split; [|exact Hnd].
      apply bool_decide_eq_true_1 in Hdraw. exact Hdraw.
  - destruct (negb (isDictionaryLoading (app w)) && _); exact Hnd.
Qed.

Lemma run_keeps_ids_distinct (events : list Event) : forall w,
  draws_unused events w = true ->
  NoDup (ids (highlights (app w))) ->
  NoDup (ids (highlights (app (run events w)))).
Proof.
  induction events as [|e events IH]; intros w Hdraws Hnd; [exact Hnd|].
  cbn [draws_unused] in Hdraws. apply andb_prop in Hdraws as [He Hrest].
  cbn [run fold_left]. apply IH; [exact Hrest|].
  apply step_keeps_ids_distinct; assumption.
Qed.

(** C9, amended. In every session in which each identifier drawn for a
    new record is the id of no record of the collection at that moment,
    the ids of the collection are pairwise distinct. The code draws the
    identifiers at random and compares them with nothing. *)
Theorem ids_distinct_when_draws_unused (events : list Event) :
  draws_unused events start = true ->
  NoDup (ids (highlights (app (run events start)))).
Proof.
  intros Hdraws. apply run_keeps_ids_distinct; [exact Hdraws|].
  cbn. constructor.
Qed.

Lemma ids_distinct_when_draws_unused_witness :
  draws_unused (session_open_editor ++ session_edit_first
                ++ [ MouseUp (Some (lit "moradia"));
                     ClickColor Pink (lit "0.4fzyo82mvyr") 4000;
                     ClickTrash 1%nat ]) start = true
  /\ NoDup (ids (highlights (app (run
        (session_open_editor ++ session_edit_first
         ++ [ MouseUp (Some (lit "moradia"));
              ClickColor Pink (lit "0.4fzyo82mvyr") 4000;
              ClickTrash 1%nat ]) start)))).
Proof.
  split; [vm_compute; reflexivity|].
  apply ids_distinct_when_draws_unused. vm_compute; reflexivity.
Defined.

Example ids_after_sample_session :
  ids (highlights (app (run
        (session_open_editor ++ session_edit_first
         ++ [ MouseUp (Some (lit "moradia"));
              ClickColor Pink (lit "0.4fzyo82mvyr") 4000;
              ClickTrash 1%nat ]) start)))
  = [lit "4fzyo82mv"; lit "i"].
Proof. vm_compute. reflexivity. Qed.

(** ** Loading a document *)

(** C8 fails as stated: when a second document arrives after the reader
    zoomed and chose the single-page view, page and page count are set
    anew but zoom and view mode stay as the reader left them. *)
Lemma onFileChange_view_kept_counterexample :
  let s := app (run session_second_load start) in
  pdfDoc s = Some (mkPdf 7)
  /\ numPages s = 7
  /\ currentPage s = 1
  /\ viewMode s = single
  /\ viewMode s <> viewMode initial
  /\ scale s = 1.3%float
  /\ (scale s =? scale initial)%float = false.
Proof.
  cbv zeta. repeat (split; [vm_compute; reflexivity|]).
  split; [vm_compute; discriminate|].
  split; vm_compute; reflexivity.
Qed.

(** C8, amended. Loading a document sets the document, sets [numPages]
    to its page count and [currentPage] to 1; the zoom scale, the view
    mode and every other part of the state are left as they were. *)
Theorem onFileChange_sets_document_and_page (pdf : PDFDocumentProxy)
    (s : State) :
  onFileChange pdf s
  = {| pdfDoc := Some pdf;
       numPages := pdf_numPages pdf;
       currentPage := 1;
       highlights := highlights s;
       selectedText := selectedText s;
       isDictionaryLoading := isDictionaryLoading s;
       dictionaryResult := dictionaryResult s;
       showAnnotationModal := showAnnotationModal s;
       activeNote := activeNote s;
       editingHighlightId := editingHighlightId s;
       theme := theme s;
       viewMode := viewMode s;
       scale := scale s |}
  /\ scale (onFileChange pdf s) = scale s
  /\ viewMode (onFileChange pdf s) = viewMode s.
Proof. repeat split. Qed.

(** ** Rendering *)

Lemma requestedPages_renderPage (s : State) (pageNumber : Z)
    (canvas : option HTMLCanvasElement) :
  requestedPages (renderPage s pageNumber canvas)
  = match pdfDoc s, canvas with
    | Some _, Some _ =>
        if (pageNumber >? numPages s) || (pageNumber <? 1) then []
        else [pageNumber]
    | _, _ => []
    end.
Proof.
  unfold renderPage, requestedPages.
  destruct (pdfDoc s), canvas as [cv|]; try reflexivity.
  destruct ((pageNumber >? numPages s) || (pageNumber <? 1)); [reflexivity|].
  destruct (has_context2d cv); reflexivity.
Qed.

Lemma renderPage_called (s : State) (pageNumber : Z)
    (canvas : option HTMLCanvasElement) (call : Call) :
  call ∈ renderPage s pageNumber canvas ->
  is_Some (pdfDoc s) /\ is_Some canvas /\ 1 <= pageNumber <= numPages s.
Proof.
  unfold renderPage.
  destruct (pdfDoc s), canvas as [cv|];
    try (intros Hin; apply elem_of_nil in Hin; contradiction).
  destruct ((pageNumber >? numPages s) || (pageNumber <? 1)) eqn:Hguard;
    [intros Hin; apply elem_of_nil in Hin; contradiction|].
  intros _. apply orb_false_elim in Hguard as [Hgt Hlt].
  repeat split; eauto; lia.
Qed.

Lemma requestedPages_in_range (s : State) (pageNumber : Z)
    (canvas : option HTMLCanvasElement) (n : Z) :
  n ∈ requestedPages (renderPage s pageNumber canvas) ->
  n = pageNumber /\ 1 <= n <= numPages s.
Proof.
  rewrite requestedPages_renderPage.
  destruct (pdfDoc s), canvas;
    try (intros Hin; apply elem_of_nil in Hin; contradiction).
  destruct ((pageNumber >? numPages s) || (pageNumber <? 1)) eqn:Hguard;
    [intros Hin; apply elem_of_nil in Hin; contradiction|].
  intros ->%list_elem_of_singleton.
  apply orb_false_elim in Hguard as [Hgt Hlt]. lia.
Qed.

Lemma renderEffect_in_range (s : State)
    (current1 current2 : option HTMLCanvasElement) (n : Z) :
  n ∈ requestedPages (renderEffect s current1 current2) ->
  1 <= n <= numPages s.
Proof.
  unfold renderEffect. destruct (pdfDoc s) eqn:Hdoc;
    [|intros Hin; apply elem_of_nil in Hin; contradiction].
  unfold requestedPages. rewrite omap_app.
  intros [Hin|Hin]%elem_of_app.
  - apply requestedPages_in_range in Hin. tauto.
  - destruct (ViewMode_eqb (viewMode s) double
              && (currentPage s + 1 <=? numPages s));
      [|apply elem_of_nil in Hin; contradiction].
    apply requestedPages_in_range in Hin. tauto.
Qed.

(** C10. [renderPage] makes no call at all when no document is loaded,
    when the canvas is absent, or when the page number is below 1 or above
    [numPages]; whenever it makes a call, a document is loaded, the canvas
    is there and the page number lies in [1, numPages]; the one page it
    asks for is the page it was given, and with a document, a canvas and
    a page number in range it does ask for it. The render effect asks
    for pages in [1, numPages] only, so never for page [numPages + 1]. *)
Theorem renderPage_only_in_range (s : State) (pageNumber : Z)
    (canvas : option HTMLCanvasElement) :
  (pdfDoc s = None \/ canvas = None
   \/ pageNumber < 1 \/ pageNumber > numPages s ->
   renderPage s pageNumber canvas = [])
  /\ (forall call, call ∈ renderPage s pageNumber canvas ->
       is_Some (pdfDoc s) /\ is_Some canvas
       /\ 1 <= pageNumber <= numPages s)
  /\ (forall n, n ∈ requestedPages (renderPage s pageNumber canvas) ->
       n = pageNumber)
  /\ (is_Some (pdfDoc s) -> is_Some canvas ->
      1 <= pageNumber <= numPages s ->
      requestedPages (renderPage s pageNumber canvas) = [pageNumber])
  /\ (forall current1 current2 n,
       n ∈ requestedPages (renderEffect s current1 current2) ->
       1 <= n <= numPages s)
  /\ (forall current1 current2,
       numPages s + 1 ∉ requestedPages (renderEffect s current1 current2)).
Proof.
  split.
  { intros Hguard. unfold renderPage.
    destruct (pdfDoc s), canvas; try reflexivity.
    destruct Hguard as [Hdoc|[Hcanvas|Hpage]]; try discriminate.
    replace ((pageNumber >? numPages s) || (pageNumber <? 1)) with true;
      [reflexivity|].
    symmetry. apply orb_true_iff. destruct Hpage; [right|left]; lia. }
  split; [intros call; apply renderPage_called|].
  split; [intros n Hn; apply requestedPages_in_range in Hn; tauto|].
  split.
  { intros [doc Hdoc] [cv Hcv] Hrange.
    rewrite requestedPages_renderPage, Hdoc, Hcv.
    replace ((pageNumber >? numPages s) || (pageNumber <? 1)) with false;
      [reflexivity|].
    symmetry. apply orb_false_iff. lia. }
  split; [intros c1 c2 n; apply renderEffect_in_range|].
  intros c1 c2 Hin. apply renderEffect_in_range in Hin. lia.
Qed.

Lemma renderPage_only_in_range_witness :
  let s := app (run session_book_view start) in
  let left := Some (mkCanvas canvasRef1 true) in
  let right := Some (mkCanvas canvasRef2 true) in
  currentPage s = 5 /\ numPages s = 5 /\ viewMode s = double
  /\ (6 > numPages s /\ renderPage s 6 right = [])
  /\ (is_Some (pdfDoc s) /\ is_Some left /\ 1 <= 5 <= numPages s
      /\ requestedPages (renderPage s 5 left) = [5])
  /\ requestedPages (renderEffect s left right) = [5].
Proof.
  cbv zeta.
  pose proof (renderPage_only_in_range (app (run session_book_view start)) 6
                (Some (mkCanvas canvasRef2 true))) as (Hout & _).
  pose proof (renderPage_only_in_range (app (run session_book_view start)) 5
                (Some (mkCanvas canvasRef1 true))) as (_ & _ & _ & Hin & _).
  repeat (split; [reflexivity|]).
  split; [split; [reflexivity|]|].
  - apply Hout. right; right; right. reflexivity.
  - split; [|reflexivity].
    assert (is_Some (pdfDoc (app (run session_book_view start)))) as Hdoc
      by (eexists; reflexivity).
    assert (is_Some (Some (mkCanvas canvasRef1 true))) as Hcv
      by (eexists; reflexivity).
    assert (1 <= 5 <= numPages (app (run session_book_view start))) as Hr
      by (split; discriminate).
    split; [exact Hdoc|]. split; [exact Hcv|]. split; [exact Hr|].
    apply Hin; assumption.
Defined.

(** ** Navigation steps and the pair of pages shown *)

(** C4 fails as stated: after one page forward in single-page view, the
    book view shows pages 2 and 3, a pair that starts at an even page. *)
Lemma double_mode_pair_counterexample :
  let s := app (run session_even_start start) in
  viewMode s = double
  /\ currentPage s = 2
  /\ Z.odd (currentPage s) = false
  /\ requestedPages (renderEffect s (Some (mkCanvas canvasRef1 true))
                                   (Some (mkCanvas canvasRef2 true)))
     = [2; 3].
Proof. cbv zeta. repeat split. Qed.

Lemma step_keeps_book_view (e : Event) (w : World) :
  match e with ClickViewMode single => false | _ => true end = true ->
  viewMode (app w) = double /\ Z.odd (currentPage (app w)) = true ->
  viewMode (app (step e w)) = double
  /\ Z.odd (currentPage (app (step e w))) = true.
Proof.
  intros He [Hmode Hodd]. destruct e; cbn [step].
  - destruct (loaded (app w)); split; assumption.
  - destruct (loadingTasks w !! task); split; solve [assumption|reflexivity].
  - destruct m; [discriminate|].
    destruct (loaded (app w)); split; solve [assumption|reflexivity].
  - destruct (loaded (app w)); split; assumption.
  - destruct (loaded (app w)); split; assumption.
  - split; assumption.
  - destruct (loaded (app w)); [|split; assumption].
    destruct (prev_disabled (app w)) eqn:Hd; [split; assumption|].
    split; [exact Hmode|]. cbn. rewrite Hmode. cbn. unfold Math_max.
    destruct (Z.max_spec (currentPage (app w) - 2) 1) as [[_ ->]|[_ ->]];
      [reflexivity|].
    rewrite Z.odd_sub, Hodd. reflexivity.
  - destruct (loaded (app w)); [|split; assumption].
    destruct (next_disabled (app w)) eqn:Hd; [split; assumption|].
    split; [exact Hmode|]. cbn. unfold next_disabled in Hd.
    rewrite Hmode in *. cbn in *. unfold Math_min.
    apply orb_false_elim in Hd as [_ Hd].
    rewrite Z.min_l by lia.
    rewrite Z.odd_add, Hodd. reflexivity.
  - destruct selection as [sel|]; cbn [on_app app handleMouseUp];
      [|split; assumption].
    destruct (0 <? length (trim sel))%nat; split; assumption.
  - destruct (truthy (selectedText (app w))); split; assumption.
  - destruct (truthy (selectedText (app w))) eqn:Hsel; [|split; assumption].
    cbn. unfold fetchDictionary_request. rewrite Hsel. split; assumption.
  - destruct (lookupsInFlight w); split; assumption.
  - destruct (lookupsInFlight w); split; assumption.
  - destruct (truthy (selectedText (app w))); split; assumption.
  - destruct (truthy (selectedText (app w))); split; assumption.
  - destruct (highlights (app w) !! i) as [h|]; [|split; assumption].
    destruct (truthy_opt (comment h)); split; assumption.
  - destruct (highlights (app w) !! i) as [h|]; split; assumption.
  - destruct (showAnnotationModal (app w)); split; assumption.
  - destruct (showAnnotationModal (app w)); split; assumption.
  - destruct (showAnnotationModal (app w)); [|split; assumption].
    destruct (save_disabled (app w)); [split; assumption|].
    cbn [on_app app]. unfold saveHighlight.
    destruct (truthy_opt (editingHighlightId (app w))); split; assumption.
  - destruct (negb (isDictionaryLoading (app w)) && _); split; assumption.
Qed.

Lemma run_keeps_book_view (events : list Event) : forall w,
  book_view_only events = true ->
  viewMode (app w) = double /\ Z.odd (currentPage (app w)) = true ->
  viewMode (app (run events w)) = double
  /\ Z.odd (currentPage (app (run events w))) = true.
Proof.
  induction events as [|e events IH]; intros w Hbook Hw; [exact Hw|].
  cbn [book_view_only forallb] in Hbook.
  apply andb_prop in Hbook as [He Hrest].
  cbn [run fold_left]. apply IH; [exact Hrest|].
  apply step_keeps_book_view; assumption.
Qed.

(** C4, amended. [nextPage] sets [currentPage] to the smaller of
    [currentPage + step] and [numPages], [prevPage] to the larger of
    [currentPage - step] and 1, where [step] is 2 in double-page mode and
    1 in single-page mode. In double-page mode the pages asked for are
    [currentPage] and, when it is at most [numPages], [currentPage + 1].
    That pair starts at an odd page in every session that never switched
    to the single-page view; after such a switch it may start at an even
    one. *)
Theorem navigation_moves_by_step (s : State) :
  currentPage (nextPage s)
  = Z.min (currentPage s + (if ViewMode_eqb (viewMode s) double then 2 else 1))
          (numPages s)
  /\ currentPage (prevPage s)
     = Z.max (currentPage s - (if ViewMode_eqb (viewMode s) double then 2 else 1))
             1
  /\ (forall current1 current2,
       is_Some (pdfDoc s) -> viewMode s = double ->
       1 <= currentPage s <= numPages s ->
       requestedPages (renderEffect s (Some current1) (Some current2))
       = if currentPage s + 1 <=? numPages s
         then [currentPage s; currentPage s + 1]
         else [currentPage s])
  /\ (forall events,
       book_view_only events = true ->
       viewMode (app (run events start)) = double
       /\ Z.odd (currentPage (app (run events start))) = true).
Proof.
  split; [destruct s as [? ? ? ? ? ? ? ? ? ? ? [] ?]; reflexivity|].
  split; [destruct s as [? ? ? ? ? ? ? ? ? ? ? [] ?]; reflexivity|].
  split.
  - intros c1 c2 [doc Hdoc] Hmode Hrange.
    unfold renderEffect, requestedPages. rewrite Hdoc, Hmode, omap_app.
    fold (requestedPages (renderPage s (currentPage s) (Some c1))).
    rewrite requestedPages_renderPage, Hdoc.
    replace ((currentPage s >? numPages s) || (currentPage s <? 1))
      with false by (symmetry; apply orb_false_iff; lia).
    cbn [ViewMode_eqb andb].
    destruct (currentPage s + 1 <=? numPages s) eqn:Hnext; [|reflexivity].
    fold (requestedPages (renderPage s (currentPage s + 1) (Some c2))).
    rewrite requestedPages_renderPage, Hdoc.
    replace ((currentPage s + 1 >? numPages s) || (currentPage s + 1 <? 1))
      with false by (symmetry; apply orb_false_iff; lia).
    reflexivity.
  - intros events Hbook. apply run_keeps_book_view; [exact Hbook|].
    split; reflexivity.
Qed.

Lemma navigation_moves_by_step_witness :
  let s := app (run session_book_view start) in
  book_view_only session_book_view = true
  /\ viewMode s = double
  /\ Z.odd (currentPage s) = true
  /\ currentPage s = 5
  /\ currentPage (prevPage s) = 3
  /\ currentPage (nextPage s) = 5.
Proof.
  cbv zeta. split; [reflexivity|].
  pose proof (navigation_moves_by_step (app (run session_book_view start)))
    as (Hnext & Hprev & _ & Hodd).
  split; [apply Hodd; reflexivity|].
  split; [apply Hodd; reflexivity|].
  split; [reflexivity|].
  split; [rewrite Hprev; reflexivity|rewrite Hnext; reflexivity].
Defined.

(** * Further properties of the component *)

(** ** What every session keeps *)

Lemma trim_some_not_blank (sel : jsstring) :
  (0 <? length (trim sel))%nat = true -> forallb is_whitespace sel = false.
Proof.
  intros Hlen. destruct (forallb is_whitespace sel) eqn:Hblank; [|reflexivity].
  apply trim_nil_iff in Hblank. rewrite Hblank in Hlen. discriminate.
Qed.

Lemma save_enabled_note (s : State) :
  save_disabled s = false -> forallb is_whitespace (activeNote s) = false.
Proof.
  intros Hd. destruct (forallb is_whitespace (activeNote s)) eqn:Hb;
    [|reflexivity].
  apply save_disabled_iff in Hb. congruence.
Qed.

Lemma newId_length (random36 : jsstring) : (length (newId random36) <= 9)%nat.
Proof. unfold newId, substr. rewrite length_take. lia. Qed.

Lemma bg_in_palette (c : Color) : bg c ∈ palette.
Proof. destruct c; by_computation. Qed.

Lemma note_color_in_palette : lit "bg-stone-100" ∈ palette.
Proof. by_computation. Qed.

Lemma with_comment_tidy (note : jsstring) (h : Highlight) :
  forallb is_whitespace note = false ->
  record_tidy h -> record_tidy (with_comment note h).
Proof.
  intros Hnote (Hp & Ht & Hc & _ & Hid).
  repeat split; try assumption.
  intros c [= <-]. exact Hnote.
Qed.

(** One event keeps a tidy state tidy. *)
Lemma step_keeps_tidy (e : Event) (w : World) :
  tidy (app w) -> tidy (app (step e w)).
Proof.
  intros Htidy. pose proof Htidy as (Hpage & Hsel & Hmodal & Hrec).
  destruct e; cbn [step].
  - destruct (loaded (app w)); exact Htidy.
  - destruct (loadingTasks w !! task); [|exact Htidy].
    split; [cbn; lia|]. (split; [exact Hsel|split; [exact Hmodal|exact Hrec]]).
  - destruct (loaded (app w)); exact Htidy.
  - destruct (loaded (app w)); exact Htidy.
  - destruct (loaded (app w)); exact Htidy.
  - exact Htidy.
  - destruct (loaded (app w)); [|exact Htidy].
    destruct (prev_disabled (app w)); [exact Htidy|].
    split; [cbn; unfold Math_max; lia|]. (split; [exact Hsel|split; [exact Hmodal|exact Hrec]]).
  - destruct (loaded (app w)); [|exact Htidy].
    destruct (next_disabled (app w)) eqn:Hd; [exact Htidy|].
    split; [|(split; [exact Hsel|split; [exact Hmodal|exact Hrec]])].
    cbn. unfold Math_min. unfold next_disabled in Hd.
    apply orb_false_elim in Hd as [Hd _].
    destruct (viewMode (app w)); cbn; lia.
  - cbn [on_app app]. unfold handleMouseUp.
    destruct selection as [sel|].
    + destruct (0 <? length (trim sel))%nat eqn:Hlen.
      * split; [exact Hpage|]. split; [|split; [exact Hmodal|exact Hrec]].
        cbn. intros Hblank. apply trim_some_not_blank in Hlen. congruence.
      * split; [exact Hpage|]. split; [reflexivity|split; [exact Hmodal|exact Hrec]].
    + split; [exact Hpage|]. split; [reflexivity|split; [exact Hmodal|exact Hrec]].
  - destruct (truthy (selectedText (app w))); [|exact Htidy].
    split; [exact Hpage|]. split; [reflexivity|]. split; [exact Hmodal|].
    cbn [app on_app addHighlight setSelectedText setHighlights highlights].
    constructor; [|exact Hrec].
    split; [exact Hpage|]. split; [exact Hsel|].
    split; [apply bg_in_palette|]. split; [discriminate|apply newId_length].
  - destruct (truthy (selectedText (app w))) eqn:Hs; [|exact Htidy].
    cbn. unfold fetchDictionary_request. rewrite Hs. exact Htidy.
  - destruct (lookupsInFlight w); exact Htidy.
  - destruct (lookupsInFlight w); exact Htidy.
  - destruct (truthy (selectedText (app w))); [|exact Htidy].
    split; [exact Hpage|]. split; [exact Hsel|]. split; [discriminate|exact Hrec].
  - destruct (truthy (selectedText (app w))); [|exact Htidy].
    split; [exact Hpage|]. split; [reflexivity|split; [exact Hmodal|exact Hrec]].
  - destruct (highlights (app w) !! i) as [h|] eqn:Hi; [|exact Htidy].
    destruct (truthy_opt (comment h)); [|exact Htidy].
    split; [exact Hpage|]. split; [|split; [discriminate|exact Hrec]].
    cbn. rewrite Forall_lookup in Hrec.
    destruct (Hrec _ _ Hi) as (_ & Ht & _). exact Ht.
  - destruct (highlights (app w) !! i) as [h|]; [|exact Htidy].
    split; [exact Hpage|]. split; [exact Hsel|]. split; [exact Hmodal|].
    cbn. rewrite Forall_forall in Hrec |- *.
    intros x Hx. apply list_elem_of_filter in Hx.
    apply Hrec. tauto.
  - destruct (showAnnotationModal (app w)); [|exact Htidy].
    split; [exact Hpage|]. split; [reflexivity|]. split; [split; reflexivity|].
    exact Hrec.
  - destruct (showAnnotationModal (app w)) eqn:Hopen; [|exact Htidy].
    split; [exact Hpage|]. split; [exact Hsel|]. split; [|exact Hrec].
    cbn. congruence.
  - destruct (showAnnotationModal (app w)); [|exact Htidy].
    destruct (save_disabled (app w)) eqn:Hd; [exact Htidy|].
    apply save_enabled_note in Hd.
    cbn [on_app app]. unfold saveHighlight.
    destruct (truthy_opt (editingHighlightId (app w)));
      (split; [exact Hpage|]; split; [reflexivity|];
       split; [split; reflexivity|]);
      cbn [closeAnnotationModal setSelectedText setActiveNote
           setEditingHighlightId setShowAnnotationModal setHighlights
           highlights].
    + rewrite Forall_forall in Hrec |- *.
      intros x Hx. apply list_elem_of_In, in_map_iff in Hx.
      destruct Hx as (h & <- & Hh). apply list_elem_of_In in Hh.
      destruct (strict_eq (id h) (editingHighlightId (app w)));
        [apply with_comment_tidy|]; auto.
    + constructor; [|exact Hrec].
      split; [exact Hpage|]. split; [exact Hsel|].
      split; [apply note_color_in_palette|].
      split; [intros c [= <-]; exact Hd|apply newId_length].
  - destruct (negb (isDictionaryLoading (app w)) && _); exact Htidy.
Qed.

Lemma run_keeps_tidy (events : list Event) : forall w,
  tidy (app w) -> tidy (app (run events w)).
Proof.
  induction events as [|e events IH]; intros w Hw; [exact Hw|].
  cbn [run fold_left]. apply IH, step_keeps_tidy, Hw.
Qed.

Lemma start_tidy : tidy (app start).
Proof.
  split; [cbn; lia|]. split; [reflexivity|].
  split; [split; reflexivity|constructor].
Qed.

(** X1. At every point of every session the selection toolbar is shown
    (the selected text is non-empty) exactly when the selected text has a
    code unit that is not white space. *)
Theorem toolbar_only_for_written_selection (events : list Event) :
  truthy (selectedText (app (run events start)))
  = negb (forallb is_whitespace (selectedText (app (run events start)))).
Proof.
  destruct (run_keeps_tidy events start start_tidy) as (_ & Hsel & _).
  destruct (selectedText (app (run events start))) as [|c r] eqn:Htext;
    [reflexivity|].
  destruct (forallb is_whitespace (c :: r)) eqn:Hblank; [|reflexivity].
  specialize (Hsel eq_refl). discriminate.
Qed.

(** X2. At every point of every session, when the annotation modal is
    closed no record is being edited and the note buffer is empty. *)
Theorem closed_modal_has_no_draft (events : list Event) :
  showAnnotationModal (app (run events start)) = false ->
  editingHighlightId (app (run events start)) = None
  /\ activeNote (app (run events start)) = [].
Proof.
  destruct (run_keeps_tidy events start start_tidy) as (_ & _ & Hmodal & _).
  exact Hmodal.
Qed.

Lemma closed_modal_has_no_draft_witness :
  showAnnotationModal (app (run (session_open_editor ++ session_edit_first) start))
  = false
  /\ editingHighlightId (app (run (session_open_editor ++ session_edit_first) start))
     = None
  /\ activeNote (app (run (session_open_editor ++ session_edit_first) start)) = [].
Proof.
  split; [reflexivity|].
  apply (closed_modal_has_no_draft (session_open_editor ++ session_edit_first)).
  reflexivity.
Defined.

(** X3. At every point of every session, every record of the collection
    is on a page numbered 1 or more, has a text that is empty or has a
    code unit that is not white space, has one of the four highlight
    classes or the annotation class as its color, has no comment or a
    comment with a code unit that is not white space, and has an id of
    at most nine code units. *)
Theorem records_stay_tidy (events : list Event) :
  Forall (fun h =>
            1 <= page h
            /\ (forallb is_whitespace (text h) = true -> text h = [])
            /\ color h ∈ [lit "bg-yellow-200"; lit "bg-blue-200";
                          lit "bg-green-200"; lit "bg-pink-200";
                          lit "bg-stone-100"]
            /\ (forall c, comment h = Some c ->
                          forallb is_whitespace c = false)
            /\ (length (id h) <= 9)%nat)
         (highlights (app (run events start))).
Proof.
  destruct (run_keeps_tidy events start start_tidy) as (_ & _ & _ & Hrec).
  exact Hrec.
Qed.

(** X4. From any point of a session where the modal is closed and a
    text is selected, choosing to annotate, typing a note that is not
    blank and saving puts first a new record with the drawn id, the
    current page, the selected text, the annotation class, the note as
    comment and the clock reading; the records already there follow; the
    modal is closed and selection, note buffer and edited id are
    cleared. *)
Theorem annotation_flow_creates_record (events : list Event)
    (note random36 : jsstring) (now : Z) :
  let w := run events start in
  let w' := run [ClickAnnotate; TypeNote note; ClickSave random36 now] w in
  showAnnotationModal (app w) = false ->
  truthy (selectedText (app w)) = true ->
  forallb is_whitespace note = false ->
  highlights (app w')
  = {| id := newId random36; page := currentPage (app w);
       text := selectedText (app w); color := lit "bg-stone-100";
       comment := Some note; rects := []; timestamp := now |}
    :: highlights (app w)
  /\ showAnnotationModal (app w') = false
  /\ selectedText (app w') = []
  /\ activeNote (app w') = []
  /\ editingHighlightId (app w') = None.
Proof.
  cbv zeta. intros Hclosed Hsel Hnote.
  destruct (run_keeps_tidy events start start_tidy) as (_ & _ & Hmodal & _).
  destruct (Hmodal Hclosed) as [Hediting _].
  set (w := run events start) in *.
  cbn [run fold_left]. cbn [step]. rewrite Hsel.
  cbn [step on_app app showAnnotationModal setShowAnnotationModal
       setActiveNote].
  assert (save_disabled
            (setActiveNote note
               (setShowAnnotationModal true (setActiveNote [] (app w))))
          = false) as Hsave.
  { destruct (save_disabled _) eqn:Hd; [|reflexivity].
    apply save_disabled_iff in Hd. cbn in Hd. congruence. }
  cbn [setShowAnnotationModal setActiveNote showAnnotationModal] in Hsave |- *.
  rewrite Hsave. cbn [on_app app]. unfold saveHighlight.
  change (editingHighlightId
            (setActiveNote note
               (setShowAnnotationModal true (setActiveNote [] (app w)))))
    with (editingHighlightId (app w)).
  rewrite Hediting. cbn [truthy_opt].
  repeat split.
Qed.

Lemma annotation_flow_creates_record_witness :
  let w := run [MouseUp (Some (lit "casa"))] start in
  let w' := run [ClickAnnotate; TypeNote (lit "um lar"); ClickSave (lit "0.i") 1000] w in
  showAnnotationModal (app w) = false
  /\ truthy (selectedText (app w)) = true
  /\ forallb is_whitespace (lit "um lar") = false
  /\ highlights (app w')
     = [ {| id := lit "i"; page := 1; text := lit "casa";
            color := lit "bg-stone-100"; comment := Some (lit "um lar");
            rects := []; timestamp := 1000 |} ]
  /\ showAnnotationModal (app w') = false.
Proof.
  cbv zeta. split; [reflexivity|]. split; [reflexivity|].
  split; [reflexivity|].
  pose proof (annotation_flow_creates_record [MouseUp (Some (lit "casa"))]
                (lit "um lar") (lit "0.i") 1000 eq_refl eq_refl eq_refl)
    as (Hnew & Hclosed & _).
  split; [rewrite Hnew; reflexivity|exact Hclosed].
Defined.

(** ** Editing, deleting and their interplay *)

Lemma with_comment_same (c : jsstring) (h : Highlight) :
  comment h = Some c -> with_comment c h = h.
Proof. destruct h; cbn. intros ->. reflexivity. Qed.

Lemma ids_filter_out (id0 : jsstring) (l : list Highlight) :
  id0 ∉ ids (filter (fun x => id x <> id0) l).
Proof.
  unfold ids. intros Hin. apply list_elem_of_In, in_map_iff in Hin.
  destruct Hin as (h & Hid & Hh). apply list_elem_of_In in Hh.
  apply list_elem_of_filter in Hh. tauto.
Qed.

Lemma openEditModal_fields (h : Highlight) (s : State) :
  editingHighlightId (openEditModal h s) = Some (id h)
  /\ highlights (openEditModal h s) = highlights s
  /\ showAnnotationModal (openEditModal h s) = true
  /\ (forall c, comment h = Some c -> truthy c = true ->
                activeNote (openEditModal h s) = c).
Proof.
  repeat split. intros c Hc Ht. cbn. rewrite Hc, Ht. reflexivity.
Qed.

(** X5. With the modal closed, ids pairwise distinct and none of them
    empty, clicking a record in the sidebar and saving straight away
    leaves the collection as it was (whether the click opened the editor
    or, the record having no comment, did nothing). *)
Theorem reopening_and_saving_changes_nothing (w : World) (i : nat)
    (random36 : jsstring) (now : Z) :
  showAnnotationModal (app w) = false ->
  NoDup (ids (highlights (app w))) ->
  Forall (fun h => truthy (id h) = true) (highlights (app w)) ->
  highlights (app (run [ClickCard i; ClickSave random36 now] w))
  = highlights (app w).
Proof.
  intros Hclosed Hnd Hids. cbn [run fold_left]. cbn [step].
  destruct (highlights (app w) !! i) as [h|] eqn:Hi;
    [|rewrite Hclosed; reflexivity].
  destruct (truthy_opt (comment h)) eqn:Hc; [|rewrite Hclosed; reflexivity].
  destruct (comment h) as [c|] eqn:Hcomment; [|discriminate].
  cbn [truthy_opt] in Hc.
  destruct (openEditModal_fields h (app w)) as (Heid & Hhs & Hopen & Hnote).
  specialize (Hnote c Hcomment Hc).
  cbn [on_app app]. rewrite Hopen.
  destruct (save_disabled _); [exact Hhs|].
  cbn [on_app app]. unfold saveHighlight.
  rewrite Heid, Hhs, Hnote. cbn [truthy_opt].
  rewrite Forall_lookup in Hids. rewrite (Hids _ _ Hi).
  cbn [closeAnnotationModal setSelectedText setActiveNote
       setEditingHighlightId setShowAnnotationModal setHighlights
       highlights].
  rewrite (edit_map_insert c _ i h Hnd Hi).
  rewrite with_comment_same by exact Hcomment.
  apply list_insert_id, Hi.
Qed.

Lemma reopening_and_saving_changes_nothing_witness :
  showAnnotationModal (app two_notes) = false
  /\ NoDup (ids (highlights (app two_notes)))
  /\ Forall (fun h => truthy (id h) = true) (highlights (app two_notes))
  /\ highlights (app (run [ClickCard 1%nat; ClickSave (lit "0.z") 5000]
                        two_notes))
     = [lar_record; casa_record].
Proof.
  assert (showAnnotationModal (app two_notes) = false) as Hclosed
    by (vm_compute; reflexivity).
  assert (NoDup (ids (highlights (app two_notes)))) as Hnd by by_computation.
  assert (Forall (fun h => truthy (id h) = true) (highlights (app two_notes)))
    as Hids by (vm_compute; repeat constructor).
  split; [vm_compute; reflexivity|]. split; [exact Hnd|]. split; [exact Hids|].
  rewrite (reopening_and_saving_changes_nothing two_notes 1%nat (lit "0.z")
             5000 Hclosed Hnd Hids).
  vm_compute; reflexivity.
Defined.

(** X6. With ids pairwise distinct, when the editor of a record (one
    with a comment and a non-empty id) is opened, a note is typed, the
    record is deleted from the sidebar and the note is then saved, the
    collection is the old one without that record: the note is kept
    nowhere and no record is created for it. *)
Theorem deleting_edited_record_drops_note (w : World) (i : nat)
    (h : Highlight) (note random36 : jsstring) (now : Z) :
  NoDup (ids (highlights (app w))) ->
  highlights (app w) !! i = Some h ->
  truthy_opt (comment h) = true ->
  truthy (id h) = true ->
  highlights (app (run [ClickCard i; TypeNote note; ClickTrash i;
                        ClickSave random36 now] w))
  = delete i (highlights (app w)).
Proof.
  intros Hnd Hi Hc Hid. cbn [run fold_left]. cbn [step].
  rewrite Hi, Hc.
  destruct (openEditModal_fields h (app w)) as (Heid & Hhs & Hopen & _).
  cbn [on_app app]. rewrite Hopen. cbn [on_app app].
  change (highlights (setActiveNote note (openEditModal h (app w))))
    with (highlights (openEditModal h (app w))).
  rewrite Hhs, Hi. cbn [on_app app].
  change (showAnnotationModal
            (deleteHighlight (id h)
               (setActiveNote note (openEditModal h (app w)))))
    with (showAnnotationModal (openEditModal h (app w))).
  rewrite Hopen.
  assert (highlights (deleteHighlight (id h)
                        (setActiveNote note (openEditModal h (app w))))
          = filter (fun x => id x <> id h) (highlights (app w))) as Hdel
    by reflexivity.
  destruct (save_disabled _); cbn [on_app app].
  { rewrite Hdel. eapply filter_id_delete; eauto. }
  unfold saveHighlight.
  change (editingHighlightId
            (deleteHighlight (id h)
               (setActiveNote note (openEditModal h (app w)))))
    with (editingHighlightId (openEditModal h (app w))).
  rewrite Heid, Hdel. cbn [truthy_opt]. rewrite Hid.
  cbn [closeAnnotationModal setSelectedText setActiveNote
       setEditingHighlightId setShowAnnotationModal setHighlights
       highlights].
  rewrite edit_map_other by apply ids_filter_out.
  eapply filter_id_delete; eauto.
Qed.

Lemma deleting_edited_record_drops_note_witness :
  NoDup (ids (highlights (app two_notes)))
  /\ highlights (app two_notes) !! 0%nat = Some lar_record
  /\ truthy_opt (comment lar_record) = true
  /\ truthy (id lar_record) = true
  /\ highlights (app (run [ClickCard 0%nat; TypeNote (lit "perdida");
                           ClickTrash 0%nat; ClickSave (lit "0.z") 5000]
                          two_notes))
     = [casa_record].
Proof.
  assert (NoDup (ids (highlights (app two_notes)))) as Hnd by by_computation.
  split; [exact Hnd|]. split; [vm_compute; reflexivity|]. split; [vm_compute; reflexivity|].
  split; [vm_compute; reflexivity|].
  rewrite (deleting_edited_record_drops_note two_notes 0%nat lar_record
             (lit "perdida") (lit "0.z") 5000 Hnd eq_refl eq_refl eq_refl).
  vm_compute; reflexivity.
Defined.

(** X7. With a text selected, making a highlight and deleting it at once
    leaves the records of the old collection whose id differs from the
    one drawn: the old collection itself exactly when the drawn id was
    not in use, and otherwise the old collection without the records
    that had that id. *)
Theorem highlight_then_trash (w : World) (c : Color) (random36 : jsstring)
    (now : Z) :
  truthy (selectedText (app w)) = true ->
  highlights (app (run [ClickColor c random36 now; ClickTrash 0%nat] w))
  = filter (fun h => id h <> newId random36) (highlights (app w))
  /\ (highlights (app (run [ClickColor c random36 now; ClickTrash 0%nat] w))
      = highlights (app w)
      <-> newId random36 ∉ ids (highlights (app w))).
Proof.
  intros Hsel.
  assert (highlights (app (run [ClickColor c random36 now; ClickTrash 0%nat] w))
          = filter (fun h => id h <> newId random36) (highlights (app w)))
    as Heq.
  { cbn [run fold_left]. cbn [step]. rewrite Hsel.
    cbn [on_app app addHighlight setSelectedText setHighlights highlights
         lookup list_lookup].
    cbn [on_app app deleteHighlight setHighlights highlights id].
    cbn [addHighlight setSelectedText setHighlights highlights].
    rewrite filter_cons_False by (cbn; tauto). reflexivity. }
  split; [exact Heq|]. rewrite Heq. split.
  - intros Hsame Hin. apply (ids_filter_out (newId random36) (highlights (app w))).
    rewrite Hsame. exact Hin.
  - intros Hnot. apply filter_all. intros h Hh Hid.
    apply Hnot. rewrite <- Hid. apply elem_of_ids, Hh.
Qed.

Lemma highlight_then_trash_witness :
  truthy (selectedText (app two_notes_selected)) = true
  /\ highlights (app (run [ClickColor Green (lit "0.abc") 6000;
                           ClickTrash 0%nat] two_notes_selected))
     = [lar_record; casa_record]
  /\ highlights (app (run [ClickColor Green (lit "0.i") 6000;
                           ClickTrash 0%nat] two_notes_selected))
     = [lar_record].
Proof.
  split; [vm_compute; reflexivity|]. split.
  - rewrite (proj1 (highlight_then_trash two_notes_selected Green
                      (lit "0.abc") 6000 eq_refl)).
    vm_compute; reflexivity.
  - rewrite (proj1 (highlight_then_trash two_notes_selected Green
                      (lit "0.i") 6000 eq_refl)).
    vm_compute; reflexivity.
Defined.

Lemma step_leaves_collection (e : Event) (w : World) :
  leaves_collection e = true ->
  highlights (app (step e w)) = highlights (app w).
Proof.
  intros He. destruct e; try discriminate; cbn [step].
  - destruct (loaded (app w)); reflexivity.
  - destruct (loadingTasks w !! task); reflexivity.
  - destruct (loaded (app w)); reflexivity.
  - destruct (loaded (app w)); reflexivity.
  - destruct (loaded (app w)); reflexivity.
  - reflexivity.
  - destruct (loaded (app w)), (prev_disabled (app w)); reflexivity.
  - destruct (loaded (app w)), (next_disabled (app w)); reflexivity.
  - cbn [on_app app]. unfold handleMouseUp.
    destruct selection as [sel|]; [|reflexivity].
    destruct (0 <? length (trim sel))%nat; reflexivity.
  - destruct (truthy (selectedText (app w))) eqn:Hs; [|reflexivity].
    cbn [app]. unfold fetchDictionary_request. rewrite Hs. reflexivity.
  - destruct (lookupsInFlight w); reflexivity.
  - destruct (lookupsInFlight w); reflexivity.
  - destruct (truthy (selectedText (app w))); reflexivity.
  - destruct (truthy (selectedText (app w))); reflexivity.
  - destruct (highlights (app w) !! i) as [h|]; [|reflexivity].
    destruct (truthy_opt (comment h)); reflexivity.
  - destruct (showAnnotationModal (app w)); reflexivity.
  - destruct (showAnnotationModal (app w)); reflexivity.
  - destruct (negb (isDictionaryLoading (app w)) && _); reflexivity.
Qed.



(** ** The lookup panel *)

Lemma step_keeps_loading (e : Event) (w : World) :
  (match e with LookupFulfilled _ => false | _ => true end) = true ->
  isDictionaryLoading (app w) = true ->
  isDictionaryLoading (app (step e w)) = true
  /\ dictionaryResult (app (step e w)) = dictionaryResult (app w).
Proof.
  intros He Hloading. destruct e; try discriminate; cbn [step].
  - destruct (loaded (app w)); split; solve [assumption|reflexivity].
  - destruct (loadingTasks w !! task); split; solve [assumption|reflexivity].
  - destruct (loaded (app w)); split; solve [assumption|reflexivity].
  - destruct (loaded (app w)); split; solve [assumption|reflexivity].
  - destruct (loaded (app w)); split; solve [assumption|reflexivity].
  - split; solve [assumption|reflexivity].
  - destruct (loaded (app w)), (prev_disabled (app w));
      split; solve [assumption|reflexivity].
  - destruct (loaded (app w)), (next_disabled (app w));
      split; solve [assumption|reflexivity].
  - cbn [on_app app]. unfold handleMouseUp.
    destruct selection as [sel|];
      [destruct (0 <? length (trim sel))%nat|];
      split; solve [assumption|reflexivity].
  - destruct (truthy (selectedText (app w)));
      split; solve [assumption|reflexivity].
  - destruct (truthy (selectedText (app w))) eqn:Hs;
      [|split; solve [assumption|reflexivity]].
    cbn [app]. unfold fetchDictionary_request. rewrite Hs. split; reflexivity.
  - destruct (lookupsInFlight w); split; solve [assumption|reflexivity].
  - destruct (truthy (selectedText (app w)));
      split; solve [assumption|reflexivity].
  - destruct (truthy (selectedText (app w)));
      split; solve [assumption|reflexivity].
  - destruct (highlights (app w) !! i) as [h|];
      [destruct (truthy_opt (comment h))|];
      split; solve [assumption|reflexivity].
  - destruct (highlights (app w) !! i) as [h|];
      split; solve [assumption|reflexivity].
  - destruct (showAnnotationModal (app w));
      split; solve [assumption|reflexivity].
  - destruct (showAnnotationModal (app w));
      split; solve [assumption|reflexivity].
  - destruct (showAnnotationModal (app w));
      [|split; solve [assumption|reflexivity]].
    destruct (save_disabled (app w)); [split; solve [assumption|reflexivity]|].
    cbn [on_app app]. unfold saveHighlight.
    destruct (truthy_opt (editingHighlightId (app w)));
      split; solve [assumption|reflexivity].
  - rewrite Hloading. cbn [negb andb]. split; solve [assumption|reflexivity].
Qed.

(** X9. While the panel is loading and no lookup is answered, whatever
    else happens (a lookup failing, new lookups being asked, the clear
    button, anything the reader does) the panel goes on loading and the
    result it holds is not touched: a lookup that fails leaves the panel
    loading until some later lookup is answered. *)
Theorem unanswered_lookup_keeps_loading (events : list Event) (w : World) :
  isDictionaryLoading (app w) = true ->
  no_fulfilment events = true ->
  isDictionaryLoading (app (run events w)) = true
  /\ dictionaryResult (app (run events w)) = dictionaryResult (app w).
Proof.
  revert w. induction events as [|e events IH]; intros w Hloading Hnone.
  - split; [exact Hloading|reflexivity].
  - cbn [no_fulfilment forallb] in Hnone.
    apply andb_prop in Hnone as [He Hrest].
    destruct (step_keeps_loading e w He Hloading) as [Hl Hr].
    cbn [run fold_left]. destruct (IH (step e w) Hl Hrest) as [Hl' Hr'].
    split; [exact Hl'|]. rewrite <- Hr. exact Hr'.
Qed.

Lemma unanswered_lookup_keeps_loading_witness :
  isDictionaryLoading (app (step ClickDictionary two_notes_selected)) = true
  /\ no_fulfilment [LookupRejected; ClickClearDictionary; ClickNext;
                    MouseUp None] = true
  /\ isDictionaryLoading
       (app (run [LookupRejected; ClickClearDictionary; ClickNext; MouseUp None]
                 (step ClickDictionary two_notes_selected))) = true
  /\ lookupsInFlight
       (run [LookupRejected; ClickClearDictionary; ClickNext; MouseUp None]
            (step ClickDictionary two_notes_selected)) = 0%nat.
Proof.
  assert (isDictionaryLoading (app (step ClickDictionary two_notes_selected))
          = true) as Hloading by (vm_compute; reflexivity).
  split; [exact Hloading|]. split; [vm_compute; reflexivity|].
  split; [|vm_compute; reflexivity].
  apply (unanswered_lookup_keeps_loading
           [LookupRejected; ClickClearDictionary; ClickNext; MouseUp None]
           (step ClickDictionary two_notes_selected) Hloading).
  vm_compute; reflexivity.
Defined.

(** ** Zoom *)

Lemma scale_mem_In (x : float) (l : list float) :
  scale_mem x l = true -> In x l.
Proof.
  unfold scale_mem. rewrite existsb_exists.
  intros (y & Hy & Heq). apply FloatAxioms.Leibniz.eqb_spec in Heq.
  subst. exact Hy.
Qed.

(** The reachable scales are closed under both handlers, lie between the
    two bounds, and neither handler moves a scale the wrong way. *)
Lemma reachable_scales_closed :
  forallb (fun x =>
             scale_mem (scale (zoomIn (setScale x initial))) reachable_scales
             && scale_mem (scale (zoomOut (setScale x initial))) reachable_scales
             && (0.4 <=? x)%float && (x <=? 3.0)%float
             && (x <=? scale (zoomIn (setScale x initial)))%float
             && (scale (zoomOut (setScale x initial)) <=? x)%float)
          reachable_scales = true.
Proof. vm_compute. reflexivity. Qed.

Lemma zoomIn_scale (s : State) :
  scale (zoomIn s) = scale (zoomIn (setScale (scale s) initial)).
Proof. reflexivity. Qed.

Lemma zoomOut_scale (s : State) :
  scale (zoomOut s) = scale (zoomOut (setScale (scale s) initial)).
Proof. reflexivity. Qed.

Lemma reachable_scale_facts (x : float) :
  scale_mem x reachable_scales = true ->
  scale_mem (scale (zoomIn (setScale x initial))) reachable_scales = true
  /\ scale_mem (scale (zoomOut (setScale x initial))) reachable_scales = true
  /\ (0.4 <=? x)%float = true /\ (x <=? 3.0)%float = true
  /\ (x <=? scale (zoomIn (setScale x initial)))%float = true
  /\ (scale (zoomOut (setScale x initial)) <=? x)%float = true.
Proof.
  intros Hx%scale_mem_In.
  pose proof reachable_scales_closed as Hall.
  rewrite forallb_forall in Hall. specialize (Hall x Hx).
  repeat (apply andb_prop in Hall as [Hall ?]).
  repeat split; assumption.
Qed.

Lemma step_keeps_scale_reachable (e : Event) (w : World) :
  scale_mem (scale (app w)) reachable_scales = true ->
  scale_mem (scale (app (step e w))) reachable_scales = true.
Proof.
  intros Hs. destruct e; cbn [step].
  - destruct (loaded (app w)); exact Hs.
  - destruct (loadingTasks w !! task); exact Hs.
  - destruct (loaded (app w)); exact Hs.
  - destruct (loaded (app w)); [|exact Hs].
    cbn [on_app app]. rewrite zoomIn_scale.
    apply reachable_scale_facts, Hs.
  - destruct (loaded (app w)); [|exact Hs].
    cbn [on_app app]. rewrite zoomOut_scale.
    apply reachable_scale_facts, Hs.
  - exact Hs.
  - destruct (loaded (app w)), (prev_disabled (app w)); exact Hs.
  - destruct (loaded (app w)), (next_disabled (app w)); exact Hs.
  - cbn [on_app app]. unfold handleMouseUp.
    destruct selection as [sel|];
      [destruct (0 <? length (trim sel))%nat|]; exact Hs.
  - destruct (truthy (selectedText (app w))); exact Hs.
  - destruct (truthy (selectedText (app w))) eqn:Hsel; [|exact Hs].
    cbn [app]. unfold fetchDictionary_request. rewrite Hsel. exact Hs.
  - destruct (lookupsInFlight w); exact Hs.
  - destruct (lookupsInFlight w); exact Hs.
  - destruct (truthy (selectedText (app w))); exact Hs.
  - destruct (truthy (selectedText (app w))); exact Hs.
  - destruct (highlights (app w) !! i) as [h|];
      [destruct (truthy_opt (comment h))|]; exact Hs.
  - destruct (highlights (app w) !! i) as [h|]; exact Hs.
  - destruct (showAnnotationModal (app w)); exact Hs.
  - destruct (showAnnotationModal (app w)); exact Hs.
  - destruct (showAnnotationModal (app w)); [|exact Hs].
    destruct (save_disabled (app w)); [exact Hs|].
    cbn [on_app app]. unfold saveHighlight.
    destruct (truthy_opt (editingHighlightId (app w))); exact Hs.
  - destruct (negb (isDictionaryLoading (app w)) && _); exact Hs.
Qed.

Lemma run_keeps_scale_reachable (events : list Event) : forall w,
  scale_mem (scale (app w)) reachable_scales = true ->
  scale_mem (scale (app (run events w))) reachable_scales = true.
Proof.
  induction events as [|e events IH]; intros w Hw; [exact Hw|].
  cbn [run fold_left]. apply IH, step_keeps_scale_reachable, Hw.
Qed.

(** X10. At every point of every session the zoom scale lies between 0.4
    and 3.0 (as binary64 numbers, so it is never NaN), zooming in does
    not lower it and zooming out does not raise it. *)
Theorem scale_stays_in_bounds (events : list Event) :
  let s := app (run events start) in
  (0.4 <=? scale s)%float = true
  /\ (scale s <=? 3.0)%float = true
  /\ (scale s <=? scale (zoomIn s))%float = true
  /\ (scale (zoomOut s) <=? scale s)%float = true.
Proof.
  cbv zeta.
  assert (scale_mem (scale (app (run events start))) reachable_scales = true)
    as Hs.
  { apply run_keeps_scale_reachable. vm_compute. reflexivity. }
  rewrite zoomIn_scale, zoomOut_scale.
  apply reachable_scale_facts in Hs. tauto.
Qed.

(** ** Document and page through a session *)

(** Events other than the arrival of a document and the two navigation
    buttons leave document, page count and current page as they are. *)
Lemma step_leaves_pages (e : Event) (w : World) :
  (match e with FileLoaded _ | ClickPrev | ClickNext => false | _ => true end)
  = true ->
  pdfDoc (app (step e w)) = pdfDoc (app w)
  /\ numPages (app (step e w)) = numPages (app w)
  /\ currentPage (app (step e w)) = currentPage (app w).
Proof.
  intros He. destruct e; try discriminate; cbn [step].
  - destruct (loaded (app w)); repeat split.
  - destruct (loaded (app w)); repeat split.
  - destruct (loaded (app w)); repeat split.
  - destruct (loaded (app w)); repeat split.
  - repeat split.
  - cbn [on_app app]. unfold handleMouseUp.
    destruct selection as [sel|];
      [destruct (0 <? length (trim sel))%nat|]; repeat split.
  - destruct (truthy (selectedText (app w))); repeat split.
  - destruct (truthy (selectedText (app w))) eqn:Hs; [|repeat split].
    cbn [app]. unfold fetchDictionary_request. rewrite Hs. repeat split.
  - destruct (lookupsInFlight w); repeat split.
  - destruct (lookupsInFlight w); repeat split.
  - destruct (truthy (selectedText (app w))); repeat split.
  - destruct (truthy (selectedText (app w))); repeat split.
  - destruct (highlights (app w) !! i) as [h|];
      [destruct (truthy_opt (comment h))|]; repeat split.
  - destruct (highlights (app w) !! i) as [h|]; repeat split.
  - destruct (showAnnotationModal (app w)); repeat split.
  - destruct (showAnnotationModal (app w)); repeat split.
  - destruct (showAnnotationModal (app w)); [|repeat split].
    destruct (save_disabled (app w)); [repeat split|].
    cbn [on_app app]. unfold saveHighlight.
    destruct (truthy_opt (editingHighlightId (app w))); repeat split.
  - destruct (negb (isDictionaryLoading (app w)) && _); repeat split.
Qed.

(** Events other than choosing a file and the arrival of a document
    leave the documents being opened as they are. *)
Lemma step_leaves_loadingTasks (e : Event) (w : World) :
  (match e with ChooseFile _ | FileLoaded _ => false | _ => true end) = true ->
  loadingTasks (step e w) = loadingTasks w.
Proof.
  intros He. destruct e; try discriminate; cbn [step].
  - destruct (loaded (app w)); reflexivity.
  - destruct (loaded (app w)); reflexivity.
  - destruct (loaded (app w)); reflexivity.
  - reflexivity.
  - destruct (loaded (app w)), (prev_disabled (app w)); reflexivity.
  - destruct (loaded (app w)), (next_disabled (app w)); reflexivity.
  - reflexivity.
  - destruct (truthy (selectedText (app w))); reflexivity.
  - destruct (truthy (selectedText (app w))); reflexivity.
  - destruct (lookupsInFlight w); reflexivity.
  - destruct (lookupsInFlight w); reflexivity.
  - destruct (truthy (selectedText (app w))); reflexivity.
  - destruct (truthy (selectedText (app w))); reflexivity.
  - destruct (highlights (app w) !! i) as [h|];
      [destruct (truthy_opt (comment h))|]; reflexivity.
  - destruct (highlights (app w) !! i) as [h|]; reflexivity.
  - destruct (showAnnotationModal (app w)); reflexivity.
  - destruct (showAnnotationModal (app w)); reflexivity.
  - destruct (showAnnotationModal (app w)); [|reflexivity].
    destruct (save_disabled (app w)); reflexivity.
  - destruct (negb (isDictionaryLoading (app w)) && _); reflexivity.
Qed.

Lemma step_keeps_pages (e : Event) (w : World) :
  (match e with ChooseFile pdf => 1 <=? pdf_numPages pdf | _ => true end)
  = true ->
  pages_hold w -> pages_hold (step e w).
Proof.
  intros He [Htasks Hdoc].
  destruct e;
    try (match goal with
         | |- pages_hold (step ?e w) =>
             destruct (step_leaves_pages e w eq_refl) as (Hd & Hn & Hc);
             split;
             [rewrite (step_leaves_loadingTasks e w eq_refl); exact Htasks
             |rewrite Hd, Hn, Hc; exact Hdoc]
         end).
  - (* ChooseFile *)
    destruct (step_leaves_pages (ChooseFile pdf) w eq_refl) as (Hd & Hn & Hc).
    split; [|rewrite Hd, Hn, Hc; exact Hdoc].
    cbn [step]. destruct (loaded (app w)); [exact Htasks|].
    cbn [loadingTasks]. apply Forall_app. split; [exact Htasks|].
    constructor; [lia|constructor].
  - (* FileLoaded *)
    cbn [step]. destruct (loadingTasks w !! task) as [pdf|] eqn:Htask;
      [|split; assumption].
    rewrite Forall_lookup in Htasks. pose proof (Htasks _ _ Htask) as Hpdf.
    split.
    + cbn [loadingTasks]. apply Forall_delete, Forall_lookup, Htasks.
    + cbn. intros pdf' [= <-]. lia.
  - (* ClickPrev *)
    split; [rewrite step_leaves_loadingTasks by reflexivity; exact Htasks|].
    cbn [step].
    destruct (loaded (app w)); [|exact Hdoc].
    destruct (prev_disabled (app w)); [exact Hdoc|].
    cbn. intros pdf Hpdf. destruct (Hdoc pdf Hpdf) as [Hn Hr].
    split; [exact Hn|]. unfold Math_max.
    destruct (viewMode (app w)); cbn; lia.
  - (* ClickNext *)
    split; [rewrite step_leaves_loadingTasks by reflexivity; exact Htasks|].
    cbn [step].
    destruct (loaded (app w)); [|exact Hdoc].
    destruct (next_disabled (app w)); [exact Hdoc|].
    cbn. intros pdf Hpdf. destruct (Hdoc pdf Hpdf) as [Hn Hr].
    split; [exact Hn|]. unfold Math_min.
    destruct (viewMode (app w)); cbn; lia.
Qed.

(** X11. In every session in which each document chosen has at least
    one page, whenever a document is loaded [numPages] is its page count
    and [1 <= currentPage <= numPages], whatever the reader did: this
    holds across loads, view switches and both navigation buttons. *)
Theorem loaded_page_in_range (events : list Event) (pdf : PDFDocumentProxy) :
  documents_have_pages events = true ->
  pdfDoc (app (run events start)) = Some pdf ->
  numPages (app (run events start)) = pdf_numPages pdf
  /\ 1 <= currentPage (app (run events start)) <= pdf_numPages pdf.
Proof.
  intros Hdocs Hpdf.
  assert (forall w, documents_have_pages events = true ->
                    pages_hold w -> pages_hold (run events w)) as Hrun.
  { clear. induction events as [|e events IH]; intros w Hdocs Hw; [exact Hw|].
    cbn [documents_have_pages forallb] in Hdocs.
    apply andb_prop in Hdocs as [He Hrest].
    cbn [run fold_left]. apply IH; [exact Hrest|].
    apply step_keeps_pages; assumption. }
  destruct (Hrun start Hdocs) as [_ Hdoc].
  { split; [constructor|]. intros pdf' Hnone. discriminate. }
  destruct (Hdoc pdf Hpdf) as [Hn Hr]. split; [exact Hn|]. lia.
Qed.

Lemma loaded_page_in_range_witness :
  documents_have_pages session_second_load = true
  /\ pdfDoc (app (run session_second_load start)) = Some (mkPdf 7)
  /\ numPages (app (run session_second_load start)) = 7
  /\ 1 <= currentPage (app (run session_second_load start)) <= 7.
Proof.
  split; [vm_compute; reflexivity|]. split; [vm_compute; reflexivity|].
  apply (loaded_page_in_range session_second_load (mkPdf 7));
    vm_compute; reflexivity.
Defined.

Lemma step_keeps_pristine (e : Event) (w : World) :
  (pdfDoc (app w) = None ->
   numPages (app w) = 0 /\ currentPage (app w) = 1
   /\ viewMode (app w) = double /\ scale (app w) = scale initial) ->
  pdfDoc (app (step e w)) = None ->
  numPages (app (step e w)) = 0 /\ currentPage (app (step e w)) = 1
  /\ viewMode (app (step e w)) = double
  /\ scale (app (step e w)) = scale initial.
Proof.
  intros Hw. destruct e; cbn [step].
  - destruct (loaded (app w)); exact Hw.
  - destruct (loadingTasks w !! task); [cbn; discriminate|exact Hw].
  - unfold loaded. destruct (pdfDoc (app w)) eqn:Hd; [cbn; congruence|].
    intros _. exact (Hw eq_refl).
  - unfold loaded. destruct (pdfDoc (app w)) eqn:Hd; [cbn; congruence|].
    intros _. exact (Hw eq_refl).
  - unfold loaded. destruct (pdfDoc (app w)) eqn:Hd; [cbn; congruence|].
    intros _. exact (Hw eq_refl).
  - exact Hw.
  - unfold loaded. destruct (pdfDoc (app w)) eqn:Hd.
    + destruct (prev_disabled (app w)); cbn; congruence.
    + intros _. exact (Hw eq_refl).
  - unfold loaded. destruct (pdfDoc (app w)) eqn:Hd.
    + destruct (next_disabled (app w)); cbn; congruence.
    + intros _. exact (Hw eq_refl).
  - cbn [on_app app]. unfold handleMouseUp.
    destruct selection as [sel|];
      [destruct (0 <? length (trim sel))%nat|]; exact Hw.
  - destruct (truthy (selectedText (app w))); exact Hw.
  - destruct (truthy (selectedText (app w))) eqn:Hs; [|exact Hw].
    cbn [app]. unfold fetchDictionary_request. rewrite Hs. exact Hw.
  - destruct (lookupsInFlight w); exact Hw.
  - destruct (lookupsInFlight w); exact Hw.
  - destruct (truthy (selectedText (app w))); exact Hw.
  - destruct (truthy (selectedText (app w))); exact Hw.
  - destruct (highlights (app w) !! i) as [h|];
      [destruct (truthy_opt (comment h))|]; exact Hw.
  - destruct (highlights (app w) !! i) as [h|]; exact Hw.
  - destruct (showAnnotationModal (app w)); exact Hw.
  - destruct (showAnnotationModal (app w)); exact Hw.
  - destruct (showAnnotationModal (app w)); [|exact Hw].
    destruct (save_disabled (app w)); [exact Hw|].
    cbn [on_app app]. unfold saveHighlight.
    destruct (truthy_opt (editingHighlightId (app w))); exact Hw.
  - destruct (negb (isDictionaryLoading (app w)) && _); exact Hw.
Qed.

Lemma step_keeps_loaded (e : Event) (w : World) :
  loaded (app w) = true -> loaded (app (step e w)) = true.
Proof.
  intros Hl. destruct e;
    try (match goal with
         | |- loaded (app (step ?e w)) = true =>
             unfold loaded;
             destruct (step_leaves_pages e w eq_refl) as (-> & _); exact Hl
         end);
    cbn [step].
  - destruct (loadingTasks w !! task); [reflexivity|exact Hl].
  - rewrite Hl. destruct (prev_disabled (app w)); exact Hl.
  - rewrite Hl. destruct (next_disabled (app w)); exact Hl.
Qed.

(** X12. As long as no document has been opened, [numPages] is 0, the
    current page is 1, the view is the double-page one and the scale is
    the initial one: the first document always arrives in the initial
    view state. Once a document is loaded, the session never goes back to
    having none. *)
Theorem view_untouched_until_loaded (events more : list Event) :
  (pdfDoc (app (run events start)) = None ->
   numPages (app (run events start)) = 0
   /\ currentPage (app (run events start)) = 1
   /\ viewMode (app (run events start)) = double
   /\ scale (app (run events start)) = scale initial)
  /\ (loaded (app (run events start)) = true ->
      loaded (app (run more (run events start))) = true).
Proof.
  split.
  - assert (forall w,
      (pdfDoc (app w) = None ->
       numPages (app w) = 0 /\ currentPage (app w) = 1
       /\ viewMode (app w) = double /\ scale (app w) = scale initial) ->
      pdfDoc (app (run events w)) = None ->
      numPages (app (run events w)) = 0 /\ currentPage (app (run events w)) = 1
      /\ viewMode (app (run events w)) = double
      /\ scale (app (run events w)) = scale initial) as Hrun.
    { clear. induction events as [|e events IH]; intros w Hw; [exact Hw|].
      cbn [run fold_left]. apply IH, step_keeps_pristine, Hw. }
    apply Hrun. intros _. repeat split.
  - generalize (run events start). clear.
    induction more as [|e more IH]; intros w Hl; [exact Hl|].
    cbn [run fold_left]. apply IH, step_keeps_loaded, Hl.
Qed.

Lemma view_untouched_until_loaded_witness :
  (pdfDoc (app (run [ClickZoomIn; ClickViewMode single; ClickNext;
                     ChooseFile (mkPdf 3)] start)) = None
   /\ viewMode (app (run [ClickZoomIn; ClickViewMode single; ClickNext;
                          ChooseFile (mkPdf 3)] start)) = double)
  /\ (loaded (app (run session_second_load start)) = true
      /\ loaded (app (run session_book_view (run session_second_load start)))
         = true).
Proof.
  split.
  - split; [vm_compute; reflexivity|].
    apply (proj1 (view_untouched_until_loaded
                    [ClickZoomIn; ClickViewMode single; ClickNext;
                     ChooseFile (mkPdf 3)] [])).
    vm_compute; reflexivity.
  - split; [vm_compute; reflexivity|].
    apply (proj2 (view_untouched_until_loaded session_second_load
                    session_book_view)).
    vm_compute; reflexivity.
Defined.

(** ** The navigation buttons *)

(** X13. The forward button is enabled exactly when a full step fits
    ([currentPage + step <= numPages], the step being 2 in double-page
    and 1 in single-page view), so a click on it moves by exactly the
    step and the clamping of [nextPage] never acts; the backward button
    is enabled exactly when [currentPage > 1], and a click on it lands
    on a page that is lower and at least 1. *)
Theorem enabled_buttons_move (s : State) :
  (next_disabled s = false
   <-> currentPage s + step_of (viewMode s) <= numPages s)
  /\ (next_disabled s = false ->
      currentPage (nextPage s) = currentPage s + step_of (viewMode s))
  /\ (prev_disabled s = false <-> 1 < currentPage s)
  /\ (prev_disabled s = false ->
      1 <= currentPage (prevPage s) < currentPage s).
Proof.
  unfold next_disabled, prev_disabled, nextPage, prevPage, Math_min, Math_max.
  destruct (viewMode s); cbn [ViewMode_eqb andb step_of currentPage
                              setCurrentPage];
    rewrite ?orb_false_r, ?orb_false_iff; repeat split; lia.
Qed.

Lemma enabled_buttons_move_witness :
  let s := app (run [ChooseFile (mkPdf 4); FileLoaded 0%nat; ClickNext] start) in
  currentPage s = 3 /\ numPages s = 4 /\ viewMode s = double
  /\ next_disabled s = true
  /\ (prev_disabled s = false /\ 1 <= currentPage (prevPage s) < currentPage s)
  /\ (next_disabled (prevPage s) = false
      /\ currentPage (nextPage (prevPage s)) = 3).
Proof.
  cbv zeta. repeat (split; [vm_compute; reflexivity|]).
  split; (split; [vm_compute; reflexivity|]).
  - apply (enabled_buttons_move
             (app (run [ChooseFile (mkPdf 4); FileLoaded 0%nat; ClickNext] start))).
    vm_compute; reflexivity.
  - rewrite (proj1 (proj2 (enabled_buttons_move
               (prevPage (app (run [ChooseFile (mkPdf 4); FileLoaded 0%nat;
                                    ClickNext] start))))));
      vm_compute; reflexivity.
Defined.

Lemma requestedPages_renderEffect (s : State)
    (current1 current2 : HTMLCanvasElement) :
  is_Some (pdfDoc s) ->
  1 <= currentPage s <= numPages s ->
  requestedPages (renderEffect s (Some current1) (Some current2))
  = if ViewMode_eqb (viewMode s) double && (currentPage s + 1 <=? numPages s)
    then [currentPage s; currentPage s + 1]
    else [currentPage s].
Proof.
  intros [doc Hdoc] Hrange.
  unfold renderEffect, requestedPages. rewrite Hdoc, omap_app.
  fold (requestedPages (renderPage s (currentPage s) (Some current1))).
  rewrite requestedPages_renderPage, Hdoc.
  replace ((currentPage s >? numPages s) || (currentPage s <? 1))
    with false by (symmetry; apply orb_false_iff; lia).
  destruct (ViewMode_eqb (viewMode s) double
            && (currentPage s + 1 <=? numPages s)) eqn:Hboth; [|reflexivity].
  apply andb_prop in Hboth as [_ Hnext].
  fold (requestedPages (renderPage s (currentPage s + 1) (Some current2))).
  rewrite requestedPages_renderPage, Hdoc.
  replace ((currentPage s + 1 >? numPages s) || (currentPage s + 1 <? 1))
    with false by (symmetry; apply orb_false_iff; lia).
  reflexivity.
Qed.

(** X14. With a document loaded and the current page in range, the
    forward button is disabled exactly when the last page of the
    document is among the pages the render effect asks for: the reader
    can go forward until the last page is on screen, and no further. *)
Theorem forward_until_last_page_shown (s : State)
    (current1 current2 : HTMLCanvasElement) :
  is_Some (pdfDoc s) ->
  1 <= currentPage s <= numPages s ->
  (next_disabled s = true
   <-> numPages s ∈ requestedPages
                      (renderEffect s (Some current1) (Some current2))).
Proof.
  intros Hdoc Hrange.
  rewrite (requestedPages_renderEffect s current1 current2 Hdoc Hrange).
  unfold next_disabled.
  destruct (viewMode s); cbn [ViewMode_eqb andb].
  - rewrite orb_false_r, list_elem_of_singleton. lia.
  - destruct (currentPage s + 1 <=? numPages s) eqn:Hnext.
    + rewrite orb_true_iff, !elem_of_cons, elem_of_nil. lia.
    + rewrite orb_true_iff, list_elem_of_singleton. lia.
Qed.

Lemma forward_until_last_page_shown_witness :
  let s := app (run [ChooseFile (mkPdf 4); FileLoaded 0%nat; ClickNext] start) in
  is_Some (pdfDoc s)
  /\ 1 <= currentPage s <= numPages s
  /\ next_disabled s = true
  /\ 4 ∈ requestedPages (renderEffect s (Some (mkCanvas canvasRef1 true))
                                        (Some (mkCanvas canvasRef2 true))).
Proof.
  cbv zeta.
  assert (is_Some (pdfDoc (app (run [ChooseFile (mkPdf 4); FileLoaded 0%nat;
                                     ClickNext] start)))) as Hdoc
    by (eexists; vm_compute; reflexivity).
  assert (1 <= currentPage (app (run [ChooseFile (mkPdf 4); FileLoaded 0%nat;
                                      ClickNext] start))
          <= numPages (app (run [ChooseFile (mkPdf 4); FileLoaded 0%nat;
                                 ClickNext] start))) as Hrange
    by (split; vm_compute; discriminate).
  split; [exact Hdoc|]. split; [exact Hrange|].
  split; [vm_compute; reflexivity|].
  apply (forward_until_last_page_shown _ (mkCanvas canvasRef1 true)
           (mkCanvas canvasRef2 true) Hdoc Hrange).
  vm_compute; reflexivity.
Defined.

(** ** What is drawn where *)

Lemma renderPage_draws (s : State) (pageNumber : Z)
    (canvas : option HTMLCanvasElement) (m : Z) (c : CanvasRef) :
  render m c ∈ renderPage s pageNumber canvas ->
  m = pageNumber
  /\ getPage m ∈ renderPage s pageNumber canvas
  /\ setCanvasSize c ∈ renderPage s pageNumber canvas
  /\ exists cv, canvas = Some cv /\ c = canvas_of cv
                /\ has_context2d cv = true.
Proof.
  unfold renderPage.
  destruct (pdfDoc s), canvas as [cv|];
    try (intros Hin; apply elem_of_nil in Hin; contradiction).
  destruct ((pageNumber >? numPages s) || (pageNumber <? 1));
    [intros Hin; apply elem_of_nil in Hin; contradiction|].
  destruct (has_context2d cv) eqn:Hctx; cbn [negb List.app].
  - rewrite !elem_of_cons, elem_of_nil.
    intros [H|[H|[H|[H|[H|[]]]]]]; try discriminate.
    injection H as -> ->.
    split; [reflexivity|]. split; [left; reflexivity|].
    split; [do 3 right; left; reflexivity|].
    exists cv. repeat split. exact Hctx.
  - rewrite !elem_of_cons, elem_of_nil.
    intros [H|[H|[H|[]]]]; discriminate.
Qed.

(** X15. Whatever the render effect draws, it draws on the canvas meant
    for it: the current page on the first canvas, the following page on
    the second one and only in double-page view with that page at most
    [numPages]. A page is drawn only on a canvas that gave a 2d context,
    and only in a run of the effect that also asks the document for that
    page and sizes that canvas. *)
Theorem each_page_drawn_on_its_canvas (s : State)
    (current1 current2 : HTMLCanvasElement) (m : Z) (c : CanvasRef) :
  render m c ∈ renderEffect s (Some current1) (Some current2) ->
  getPage m ∈ renderEffect s (Some current1) (Some current2)
  /\ setCanvasSize c ∈ renderEffect s (Some current1) (Some current2)
  /\ ((m = currentPage s /\ c = canvas_of current1
       /\ has_context2d current1 = true)
      \/ (m = currentPage s + 1 /\ c = canvas_of current2
          /\ has_context2d current2 = true
          /\ viewMode s = double /\ m <= numPages s)).
Proof.
  unfold renderEffect. destruct (pdfDoc s) eqn:Hdoc;
    [|intros Hin; apply elem_of_nil in Hin; contradiction].
  rewrite !elem_of_app. intros [Hin|Hin].
  - apply renderPage_draws in Hin as (-> & Hget & Hsize & cv & [= <-] & -> & Hctx).
    split; [left; exact Hget|]. split; [left; exact Hsize|].
    left. repeat split. exact Hctx.
  - destruct (ViewMode_eqb (viewMode s) double
              && (currentPage s + 1 <=? numPages s)) eqn:Hboth;
      [|apply elem_of_nil in Hin; contradiction].
    apply andb_prop in Hboth as [Hmode Hnext].
    apply renderPage_draws in Hin as (-> & Hget & Hsize & cv & [= <-] & -> & Hctx).
    split; [right; exact Hget|]. split; [right; exact Hsize|].
    right. repeat split; try assumption; [|lia].
    destruct (viewMode s); [discriminate|reflexivity].
Qed.

Lemma each_page_drawn_on_its_canvas_witness :
  let s := app (run [ChooseFile (mkPdf 4); FileLoaded 0%nat; ClickNext] start) in
  render 4 canvasRef2
    ∈ renderEffect s (Some (mkCanvas canvasRef1 false))
                     (Some (mkCanvas canvasRef2 true))
  /\ setCanvasSize canvasRef2
       ∈ renderEffect s (Some (mkCanvas canvasRef1 false))
                        (Some (mkCanvas canvasRef2 true))
  /\ renderEffect s (Some (mkCanvas canvasRef1 false))
                    (Some (mkCanvas canvasRef2 true))
     = [getPage 3; getViewport 3 1.2%float; getContext canvasRef1;
        getPage 4; getViewport 4 1.2%float; getContext canvasRef2;
        setCanvasSize canvasRef2; render 4 canvasRef2].
Proof.
  cbv zeta.
  assert (render 4 canvasRef2
            ∈ renderEffect
                (app (run [ChooseFile (mkPdf 4); FileLoaded 0%nat; ClickNext]
                          start))
                (Some (mkCanvas canvasRef1 false))
                (Some (mkCanvas canvasRef2 true))) as Hin.
  { vm_compute. do 7 apply list_elem_of_further. apply list_elem_of_here. }
  split; [exact Hin|]. split; [|vm_compute; reflexivity].
  apply (each_page_drawn_on_its_canvas _ _ _ 4 canvasRef2 Hin).
Defined.

(** ** Newest first *)

Lemma sorted_filter (P : Highlight -> Prop) `{forall h, Decision (P h)}
    (l : list Highlight) :
  StronglySorted (fun a b => timestamp b <= timestamp a) l ->
  StronglySorted (fun a b => timestamp b <= timestamp a) (filter P l).
Proof.
  induction l as [|a l IH]; intros Hs; [exact Hs|].
  apply StronglySorted_cons in Hs as [Ha Hl].
  rewrite filter_cons. destruct (decide (P a)); [|auto].
  apply StronglySorted_cons. split; [|auto].
  rewrite Forall_forall in Ha |- *.
  intros x Hx. apply list_elem_of_filter in Hx. apply Ha. tauto.
Qed.

Lemma sorted_edit (f : Highlight -> Highlight) (l : list Highlight) :
  (forall h, timestamp (f h) = timestamp h) ->
  StronglySorted (fun a b => timestamp b <= timestamp a) l ->
  StronglySorted (fun a b => timestamp b <= timestamp a) (List.map f l).
Proof.
  intros Hf. induction l as [|a l IH]; intros Hs; [exact Hs|].
  apply StronglySorted_cons in Hs as [Ha Hl].
  cbn [List.map]. apply StronglySorted_cons. split; [|auto].
  rewrite Forall_forall in Ha |- *.
  intros x Hx. apply list_elem_of_In, in_map_iff in Hx.
  destruct Hx as (h & <- & Hh). rewrite !Hf.
  apply Ha, list_elem_of_In, Hh.
Qed.

Lemma older_filter (P : Highlight -> Prop) `{forall h, Decision (P h)}
    (t : Z) (l : list Highlight) :
  Forall (fun h => timestamp h <= t) l ->
  Forall (fun h => timestamp h <= t) (filter P l).
Proof.
  rewrite !Forall_forall. intros Hl x Hx.
  apply list_elem_of_filter in Hx. apply Hl. tauto.
Qed.

Lemma older_edit (f : Highlight -> Highlight) (t : Z) (l : list Highlight) :
  (forall h, timestamp (f h) = timestamp h) ->
  Forall (fun h => timestamp h <= t) l ->
  Forall (fun h => timestamp h <= t) (List.map f l).
Proof.
  intros Hf. rewrite !Forall_forall. intros Hl x Hx.
  apply list_elem_of_In, in_map_iff in Hx.
  destruct Hx as (h & <- & Hh). rewrite Hf. apply Hl, list_elem_of_In, Hh.
Qed.

Lemma older_weaken (t t' : Z) (l : list Highlight) :
  t <= t' ->
  Forall (fun h => timestamp h <= t) l ->
  Forall (fun h => timestamp h <= t') l.
Proof.
  intros Ht. rewrite !Forall_forall. intros Hl h Hh.
  specialize (Hl h Hh). lia.
Qed.

Lemma run_keeps_newest_first (events : list Event) : forall (w : World) (last : Z),
  clock_from last events = true ->
  StronglySorted (fun a b => timestamp b <= timestamp a) (highlights (app w)) ->
  Forall (fun h => timestamp h <= last) (highlights (app w)) ->
  StronglySorted (fun a b => timestamp b <= timestamp a)
                 (highlights (app (run events w))).
Proof.
  induction events as [|e events IH]; intros w last Hclock Hs Hold;
    [exact Hs|].
  cbn [run fold_left].
  destruct (leaves_collection e) eqn:Hleave.
  - apply (IH _ last).
    + destruct e; try discriminate; exact Hclock.
    + rewrite (step_leaves_collection e w Hleave). exact Hs.
    + rewrite (step_leaves_collection e w Hleave). exact Hold.
  - destruct e; try discriminate; cbn [clock_from] in Hclock.
    + (* ClickColor *)
      apply andb_prop in Hclock as [Hnow Hrest]. apply Z.leb_le in Hnow.
      apply (IH _ now Hrest); cbn [step];
        (destruct (truthy (selectedText (app w)));
         [|solve [exact Hs | eapply older_weaken; eassumption]]);
        cbn [on_app app addHighlight setSelectedText setHighlights highlights].
      * apply StronglySorted_cons. split; [|exact Hs].
        cbn [timestamp]. eapply older_weaken; eassumption.
      * constructor; [cbn [timestamp]; lia|].
        eapply older_weaken; eassumption.
    + (* ClickTrash *)
      apply (IH _ last Hclock); cbn [step];
        (destruct (highlights (app w) !! i) as [h|]; [|assumption]);
        cbn [on_app app deleteHighlight setHighlights highlights].
      * apply sorted_filter, Hs.
      * apply older_filter, Hold.
    + (* ClickSave *)
      apply andb_prop in Hclock as [Hnow Hrest]. apply Z.leb_le in Hnow.
      apply (IH _ now Hrest); cbn [step];
        (destruct (showAnnotationModal (app w));
         [|solve [exact Hs | eapply older_weaken; eassumption]]);
        (destruct (save_disabled (app w));
         [solve [exact Hs | eapply older_weaken; eassumption]|]);
        cbn [on_app app]; unfold saveHighlight;
        destruct (truthy_opt (editingHighlightId (app w)));
        cbn [closeAnnotationModal setSelectedText setActiveNote
             setEditingHighlightId setShowAnnotationModal setHighlights
             highlights].
      * apply sorted_edit; [|exact Hs].
        intros h. destruct (strict_eq _ _); reflexivity.
      * apply StronglySorted_cons. split; [|exact Hs].
        cbn [timestamp]. eapply older_weaken; eassumption.
      * apply older_edit; [|eapply older_weaken; eassumption].
        intros h. destruct (strict_eq _ _); reflexivity.
      * constructor; [cbn [timestamp]; lia|].
        eapply older_weaken; eassumption.
Qed.

(** X16. In every session in which the clock readings taken for new
    records never go back, the collection is ordered newest first: each
    record's timestamp is at least the timestamps of all records after
    it. Editing a note and deleting keep that order. *)
Theorem collection_newest_first (events : list Event) (t0 : Z) :
  clock_from t0 events = true ->
  StronglySorted (fun a b => timestamp b <= timestamp a)
                 (highlights (app (run events start))).
Proof.
  intros Hclock. apply (run_keeps_newest_first events start t0 Hclock);
    constructor.
Qed.

Lemma collection_newest_first_witness :
  clock_from 0 (session_open_editor ++ session_edit_first
                ++ [ MouseUp (Some (lit "moradia"));
                     ClickColor Pink (lit "0.4fzyo82mvyr") 4000 ]) = true
  /\ StronglySorted (fun a b => timestamp b <= timestamp a)
       (highlights (app (run (session_open_editor ++ session_edit_first
                              ++ [ MouseUp (Some (lit "moradia"));
                                   ClickColor Pink (lit "0.4fzyo82mvyr") 4000 ])
                             start)))
  /\ List.map timestamp
       (highlights (app (run (session_open_editor ++ session_edit_first
                              ++ [ MouseUp (Some (lit "moradia"));
                                   ClickColor Pink (lit "0.4fzyo82mvyr") 4000 ])
                             start)))
     = [4000; 2000; 1000].
Proof.
  split; [vm_compute; reflexivity|]. split; [|vm_compute; reflexivity].
  apply (collection_newest_first _ 0). vm_compute; reflexivity.
Defined.

(** ** How a lookup settles *)

(** X17. [getWordInsights] rejects exactly when the request does, with
    the same error: a failed request is never answered by the fallback,
    and a reply that cannot be parsed never becomes a rejection. When it
    fulfils, the value is what the reply's text parsed to, or else the
    fallback for the text looked up. A reply that carries no text is
    parsed as the text [undefined], so with a parser that refuses that
    text it gives the fallback. *)
Theorem getWordInsights_settles (JSON_parse : jsstring -> option json)
    (Error : Type) (text : jsstring)
    (reply : Settled GenerateContentResponse Error) :
  (forall e, getWordInsights JSON_parse Error text reply = Rejected e
             <-> reply = Rejected e)
  /\ (forall v, getWordInsights JSON_parse Error text reply = Fulfilled v ->
       exists response,
         reply = Fulfilled response
         /\ (JSON_parse (ToString (response_text response)) = Some v
             \/ (JSON_parse (ToString (response_text response)) = None
                 /\ v = DictionaryResult_object (fallback text))))
  /\ (JSON_parse (lit "undefined") = None ->
      getWordInsights JSON_parse Error text (Fulfilled (mkResponse None))
      = Fulfilled (DictionaryResult_object (fallback text))).
Proof.
  split; [|split].
  - intros e. unfold getWordInsights. destruct reply as [response|e'].
    + destruct (JSON_parse _); split; discriminate.
    + split; intros [= ->]; reflexivity.
  - intros v. unfold getWordInsights. destruct reply as [response|e'];
      [|discriminate].
    destruct (JSON_parse _) as [data|] eqn:Hparse; intros [= <-];
      exists response; split; auto.
  - intros Hundefined. unfold getWordInsights.
    change (ToString (response_text (mkResponse None))) with (lit "undefined").
    rewrite Hundefined. reflexivity.
Qed.

Lemma getWordInsights_settles_witness :
  parse_casa (lit "undefined") = None
  /\ getWordInsights parse_casa unit (lit "casa") (Fulfilled (mkResponse None))
     = Fulfilled (DictionaryResult_object (fallback (lit "casa")))
  /\ getWordInsights parse_casa unit (lit "casa") (Rejected tt) = Rejected tt.
Proof.
  assert (parse_casa (lit "undefined") = None) as Hundefined
    by (vm_compute; reflexivity).
  split; [exact Hundefined|]. split.
  - apply (proj2 (proj2 (getWordInsights_settles parse_casa unit (lit "casa")
                           (Rejected tt))) Hundefined).
  - apply (proj1 (getWordInsights_settles parse_casa unit (lit "casa")
                    (Rejected tt))).
    reflexivity.
Defined.
